(** * Actualimporter: the import engine of the Express backend

    A shallow embedding of the backend half of the repository (the second
    document of [frontend/src/App.jsx], the Express server): the cell
    normaliser, [parseAmount], [mapRows], [groupRows] and the handler of
    [POST /api/import], together with the two helpers of the React
    front end that compute the same things for the preview
    ([applyMapping] and [groupKeys]).

    Conventions of the embedding.
    - A JavaScript string is a Rocq [string]; its characters are read as
      the code units 0..255 (Latin-1), so the white space removed by
      [String.prototype.trim] is TAB, LF, VT, FF, CR, SPACE and NBSP.
    - A JavaScript number is kept as the rational it denotes (the binary64
      value is the rounding of that rational); [+0] and [-0] are
      identified.  Overflow to [Infinity] is kept, because the code tests
      [Number.isFinite].
    - Objects that come out of [JSON.parse] are finite maps of their own
      properties ([gmap]); a property read that misses the own properties
      continues on [Object.prototype], as in JavaScript.
    - The accumulator of [groupRows] is an association list in insertion
      order, because the handler enumerates it with [Object.entries].
    - [fetch] is an oracle: a function from the calls made so far and the
      present call to the response; the handler returns what it sent to
      the client together with the trace of the calls it made. *)

From Stdlib Require Import ZArith QArith Ascii String List Lia.
From stdpp Require Import base option gmap strings list.

Local Open Scope string_scope.
Local Open Scope list_scope.
#[local] Set Warnings "-clear-no-such-hyp".

(** ** JavaScript strings *)

Module JsString.

Definition code (c : ascii) : N := N_of_ascii c.

(** White space in the sense of [trim] (WhiteSpace and LineTerminator
    below U+0100). *)
Definition isWhiteSpace (c : ascii) : bool :=
  let n := code c in
  ((9 <=? n) && (n <=? 13) || (n =? 32) || (n =? 160))%N.

(** The class [\d] of a regular expression without the [u] flag. *)
Definition isDigit (c : ascii) : bool :=
  let n := code c in ((48 <=? n) && (n <=? 57))%N.

Fixpoint trimStart (s : string) : string :=
  match s with
  | EmptyString => EmptyString
  | String c s' => if isWhiteSpace c then trimStart s' else s
  end.

Fixpoint trimEnd (s : string) : string :=
  match s with
  | EmptyString => EmptyString
  | String c s' =>
      match trimEnd s' with
      | EmptyString => if isWhiteSpace c then EmptyString else String c EmptyString
      | t => String c t
      end
  end.

(** [s.trim()] *)
Definition trim (s : string) : string := trimEnd (trimStart s).

(** [s.replace(/c/g, '')] for a single character [c]. *)
Fixpoint removeAll (c : ascii) (s : string) : string :=
  match s with
  | EmptyString => EmptyString
  | String d s' => if Ascii.eqb c d then removeAll c s' else String d (removeAll c s')
  end.

(** [s.replace(c, d)] with a string pattern: only the first occurrence
    is replaced. *)
Fixpoint replaceFirst (c d : ascii) (s : string) : string :=
  match s with
  | EmptyString => EmptyString
  | String e s' => if Ascii.eqb c e then String d s' else String e (replaceFirst c d s')
  end.

(** [s.replace(/[^...]/g, '')]: keep the characters of the class. *)
Fixpoint keep (p : ascii -> bool) (s : string) : string :=
  match s with
  | EmptyString => EmptyString
  | String c s' => if p c then String c (keep p s') else keep p s'
  end.

Fixpoint all (p : ascii -> bool) (s : string) : bool :=
  match s with
  | EmptyString => true
  | String c s' => p c && all p s'
  end.

(** Truthiness of a string: [!s] holds exactly for the empty string. *)
Definition isEmpty (s : string) : bool :=
  match s with EmptyString => true | _ => false end.

(** [s.replace(/\/$/, '')]: drop one trailing slash. *)
Fixpoint stripTrailingSlash (s : string) : string :=
  match s with
  | EmptyString => EmptyString
  | String c EmptyString => if Ascii.eqb c "/" then EmptyString else s
  | String c s' => String c (stripTrailingSlash s')
  end.

End JsString.

(** ** JavaScript numbers, as far as [parseAmount] needs them *)

Module JsNumber.

Inductive t : Type :=
| NaN
| Infinity (negative : bool)
| Finite (q : Q).

(** A decimal [mantissa * 10^-scale], in lowest terms. *)
Definition decimal (mantissa : Z) (scale : nat) : Q :=
  Qred (mantissa # Z.to_pos (10 ^ Z.of_nat scale)).

(** Rationals at or above this bound round to [Infinity] in binary64
    (round to nearest, ties to even). *)
Definition overflowBound : Z := 2 ^ 1024 - 2 ^ 970.

Definition round (q : Q) : t :=
  if Qle_bool (inject_Z overflowBound) q then Infinity false
  else if Qle_bool q (inject_Z (- overflowBound)) then Infinity true
  else Finite q.

Definition digitValue (c : ascii) : Z := Z.of_N (JsString.code c - 48).

(** The longest prefix of digits: its value, its length, and the rest. *)
Fixpoint digits (acc : Z) (len : nat) (s : string) : Z * nat * string :=
  match s with
  | String c s' =>
      if JsString.isDigit c then digits (10 * acc + digitValue c) (S len) s'
      else (acc, len, s)
  | EmptyString => (acc, len, s)
  end.

(** StrUnsignedDecimalLiteral without exponent:
    [D+], [D+ .], [D+ . D+] or [. D+]. *)
Definition unsignedLiteral (s : string) : option Q :=
  let '(i, ilen, r) := digits 0 0 s in
  match r with
  | EmptyString => if Nat.eqb ilen 0 then None else Some (decimal i 0)
  | String c r' =>
      if Ascii.eqb c "." then
        let '(m, mlen, r'') := digits i ilen r' in
        match r'' with
        | EmptyString =>
            if Nat.eqb mlen 0 then None else Some (decimal m (mlen - ilen))
        | _ => None
        end
      else None
  end.

(** [Number(s)] for a string [s] over the alphabet [0-9 . -], the only
    strings [parseAmount] applies it to (see [stripped_alphabet]).  On
    that alphabet StringToNumber accepts the empty string, with value 0,
    and an optional minus sign followed by an unsigned literal; anything
    else is [NaN]. *)
Definition Number (s : string) : t :=
  match s with
  | EmptyString => Finite 0
  | String c s' =>
      if Ascii.eqb c "-" then
        match unsignedLiteral s' with
        | Some q => round (Qred (- q))
        | None => NaN
        end
      else
        match unsignedLiteral s with
        | Some q => round q
        | None => NaN
        end
  end.

(** [Number.isFinite(n) ? n : null] *)
Definition finiteOrNull (n : t) : option Q :=
  match n with Finite q => Some q | _ => None end.

End JsNumber.

(** ** JavaScript values and property reads *)

Inductive JsValue : Type :=
| JsUndefined
| JsNull
| JsStr (s : string)
| JsNative (name : string)      (* a built-in function of Object.prototype *)
| JsObjectPrototype.            (* Object.prototype itself *)

(** [String(v)] *)
Definition toString (v : JsValue) : string :=
  match v with
  | JsUndefined => "undefined"
  | JsNull => "null"
  | JsStr s => s
  | JsNative name => "function " ++ name ++ "() { [native code] }"
  | JsObjectPrototype => "[object Object]"
  end.

(** Truthiness: [undefined], [null] and the empty string are falsy. *)
Definition truthy (v : JsValue) : bool :=
  match v with
  | JsUndefined | JsNull => false
  | JsStr s => negb (JsString.isEmpty s)
  | JsNative _ | JsObjectPrototype => true
  end.

(** The methods every ordinary object inherits. *)
Definition objectPrototypeMethods : list string :=
  [ "__defineGetter__"; "__defineSetter__"; "hasOwnProperty";
    "__lookupGetter__"; "__lookupSetter__"; "isPrototypeOf";
    "propertyIsEnumerable"; "toString"; "valueOf"; "toLocaleString" ].

(** [Object.prototype[k]] *)
Definition objectPrototypeGet (k : string) : JsValue :=
  if String.eqb k "constructor" then JsNative "Object"
  else if String.eqb k "__proto__" then JsObjectPrototype
  else if existsb (String.eqb k) objectPrototypeMethods then JsNative k
  else JsUndefined.

(** [o[k]] for an object [o] whose own properties hold strings. *)
Definition jsGet (o : gmap string string) (k : string) : JsValue :=
  match o !! k with
  | Some v => JsStr v
  | None => objectPrototypeGet k
  end.

(** [o[k] = v] for an ordinary object: the key [__proto__] runs the
    inherited setter, which ignores a string, and creates no property. *)
Definition jsSet (o : gmap string string) (k v : string) : gmap string string :=
  if String.eqb k "__proto__" then o else <[k := v]> o.

(** ** The cell normaliser and the amount parser (server) *)

(**
<<
function normalizeCellValue(value) {
  if (value === undefined || value === null) { return ''; }
  return String(value).trim();
}
>> *)
Definition normalizeCellValue (value : JsValue) : string :=
  match value with
  | JsUndefined | JsNull => ""
  | _ => JsString.trim (toString value)
  end.

(** The class [[\d.-]]. *)
Definition amountChar (c : ascii) : bool :=
  JsString.isDigit c || Ascii.eqb c "." || Ascii.eqb c "-".

(** [text.replace(/\./g, '').replace(',', '.').replace(/[^\d.-]/g, '')] *)
Definition normalizeAmountText (text : string) : string :=
  JsString.keep amountChar
    (JsString.replaceFirst "," "." (JsString.removeAll "." text)).

(**
<<
function parseAmount(rawValue) {
  const text = normalizeCellValue(rawValue);
  if (!text) { return null; }
  const normalized = text.replace(/\./g, '').replace(',', '.').replace(/[^\d.-]/g, '');
  const number = Number(normalized);
  return Number.isFinite(number) ? number : null;
}
>> *)
Definition parseAmount (rawValue : JsValue) : option Q :=
  let text := normalizeCellValue rawValue in
  if JsString.isEmpty text then None
  else
    let normalized := normalizeAmountText text in
    JsNumber.finiteOrNull (JsNumber.Number normalized).

(** ** Mapping rules

    A rule is the object the front end builds in [getInitialRule]:
    [{ type, column, columns, separator }], every member optional once it
    has gone through JSON. *)

Record Rule : Type := {
  type : option string;
  column : option string;
  columns : option (list string);
  separator : option string
}.

(** A row, and the object a row is mapped to: own properties holding
    text. *)
Abbreviation Row := (gmap string string).

(** A mapping as [Object.entries] lists it: own keys in order, each with
    its rule; [None] is a falsy member ([null]). *)
Definition Mapping : Type := list (string * option Rule).

(** [row[k]] where [k] may be [undefined]: the key is then the string
    ["undefined"]. *)
Definition propertyKey (k : option string) : string := default "undefined" k.

(** The value one rule gives on one row (the two branches below
    [if (!rule)] in [mapRows]; [applyMapping] has the same two branches).
<<
if (rule.type === 'merge') {
  const separator = rule.separator ?? ' ';
  const values = (rule.columns || [])
    .map((column) => normalizeCellValue(row[column]))
    .filter(Boolean);
  mappedRow[targetField] = values.join(separator);
} else {
  mappedRow[targetField] = normalizeCellValue(row[rule.column]);
}
>> *)
Definition applyRule (row : Row) (rule : Rule) : string :=
  if bool_decide (type rule = Some "merge") then
    let separator := default " " (separator rule) in
    let values :=
      List.filter (fun v => negb (JsString.isEmpty v))
        (List.map (fun column => normalizeCellValue (jsGet row column))
                  (default [] (columns rule))) in
    String.concat separator values
  else
    normalizeCellValue (jsGet row (propertyKey (column rule))).

(** One turn of the inner loop of [mapRows]. *)
Definition mapField (row : Row) (mappedRow : Row) (entry : string * option Rule) : Row :=
  let '(targetField, rule) := entry in
  match rule with
  | None => jsSet mappedRow targetField ""
  | Some rule => jsSet mappedRow targetField (applyRule row rule)
  end.

(** The body of the outer loop of [mapRows]: the mapped row starts as
    [{}] and receives one property per entry of the mapping. *)
Definition mapRow (mapping : Mapping) (row : Row) : Row :=
  fold_left (mapField row) mapping ∅.

(**
<<
function mapRows(rows, mapping) {
  const mapped = [];
  for (const row of rows) {
    const mappedRow = {};
    for (const [targetField, rule] of Object.entries(mapping || {})) { ... }
    mapped.push(mappedRow);
  }
  return mapped;
}
>> *)
Definition mapRows (rows : list Row) (mapping : Mapping) : list Row :=
  List.map (mapRow mapping) rows.

(** The keys of a mapping that become properties of the mapped row. *)
Definition ownKeys (mapping : Mapping) : list string :=
  List.filter (fun k => negb (String.eqb k "__proto__")) (List.map fst mapping).

(** *** The front end's mapper, for the preview *)

Definition TARGET_FIELDS : list string := ["date"; "amount"; "payee"; "notes"].

(** [mapping[key]] on the mapping object. *)
Fixpoint mappingGet (mapping : Mapping) (key : string) : option Rule :=
  match mapping with
  | [] => None
  | (k, rule) :: rest => if String.eqb k key then rule else mappingGet rest key
  end.

(**
<<
function applyMapping(rows, mapping) {
  return rows.map((row) => {
    const mapped = {};
    for (const field of TARGET_FIELDS) {
      const rule = mapping[field.key];
      if (!rule) { mapped[field.key] = ''; continue; }
      ...
    }
    return mapped;
  });
}
>> *)
Definition applyMappingRow (mapping : Mapping) (row : Row) : Row :=
  fold_left
    (fun mapped key => mapField row mapped (key, mappingGet mapping key))
    TARGET_FIELDS ∅.

Definition applyMapping (rows : list Row) (mapping : Mapping) : list Row :=
  List.map (applyMappingRow mapping) rows.

(** ** Grouping *)

(** What a function returns: a value, or a thrown exception. *)
Inductive Exception : Type :=
| TypeError (message : string)
| FetchError.

Inductive Completion (A : Type) : Type :=
| Normal (a : A)
| Throw (e : Exception).
Arguments Normal {A} a.
Arguments Throw {A} e.

(** The object [groupRows] builds: own properties in insertion order,
    each an array of rows. *)
Definition Groups : Type := list (string * list Row).

(** The two reserved group keys. *)
Definition EMPTY_KEY : string := "(leeg)".
Definition SINGLE_KEY : string := "all".

Fixpoint ownGet (acc : Groups) (key : string) : option (list Row) :=
  match acc with
  | [] => None
  | (k, rs) :: rest => if String.eqb k key then Some rs else ownGet rest key
  end.

(** [acc[key].push(row)] on an own property: the array grows in place,
    the order of the properties does not change. *)
Fixpoint ownPush (acc : Groups) (key : string) (row : Row) : Groups :=
  match acc with
  | [] => []
  | (k, rs) :: rest =>
      if String.eqb k key then (k, rs ++ [row]) :: rest
      else (k, rs) :: ownPush rest key row
  end.

(** [normalizeCellValue(row[groupByColumn]) || '(leeg)'] *)
Definition groupKeyOf (groupByColumn : string) (row : Row) : string :=
  let value := normalizeCellValue (jsGet row groupByColumn) in
  if JsString.isEmpty value then EMPTY_KEY else value.

(** The callback of the [reduce].  [acc[groupKey]] reads an own property
    or, failing that, [Object.prototype]: for a key such as
    [constructor] it is an inherited function, which is truthy, so no
    array is created and [.push] is not a function.
<<
const groupKey = normalizeCellValue(row[groupByColumn]) || '(leeg)';
if (!acc[groupKey]) { acc[groupKey] = []; }
acc[groupKey].push(row);
return acc;
>> *)
Definition groupStep (groupByColumn : string) (acc : Groups) (row : Row) : Completion Groups :=
  let groupKey := groupKeyOf groupByColumn row in
  match ownGet acc groupKey with
  | Some _ => Normal (ownPush acc groupKey row)
  | None =>
      if truthy (objectPrototypeGet groupKey)
      then Throw (TypeError "acc[groupKey].push is not a function")
      else Normal (acc ++ [(groupKey, [row])])
  end.

(** [rows.reduce(callback, acc)]; an exception in the callback ends the
    reduction. *)
Fixpoint groupReduce (groupByColumn : string) (rows : list Row) (acc : Groups) : Completion Groups :=
  match rows with
  | [] => Normal acc
  | row :: rest =>
      match groupStep groupByColumn acc row with
      | Normal acc' => groupReduce groupByColumn rest acc'
      | Throw e => Throw e
      end
  end.

(**
<<
function groupRows(rows, groupByColumn) {
  if (!groupByColumn) { return { all: rows }; }
  return rows.reduce((acc, row) => { ... }, {});
}
>> *)
Definition groupRows (rows : list Row) (groupByColumn : option string) : Completion Groups :=
  match groupByColumn with
  | None => Normal [(SINGLE_KEY, rows)]
  | Some column =>
      if JsString.isEmpty column then Normal [(SINGLE_KEY, rows)]
      else groupReduce column rows []
  end.

(** *** Vocabulary for the properties of the grouping *)

(** The rows of [rows] whose group key is [key], in their order. *)
Definition rowsOf (column key : string) (rows : list Row) : list Row :=
  List.filter (fun row => String.eqb (groupKeyOf column row) key) rows.

(** The sum of the sizes of the groups. *)
Definition sizes (g : Groups) : nat :=
  list_sum (List.map (fun e => length (snd e)) g).

(** The key names a property every object inherits. *)
Definition inherited (key : string) : bool := truthy (objectPrototypeGet key).

Definition nonEmpty (rs : list Row) : option (list Row) :=
  match rs with [] => None | _ => Some rs end.

(** *** Enumeration with [Object.entries]

    Own keys that are array indices (canonical decimal numerals up to
    2^32 - 2) come first, in ascending numeric order; the other keys
    follow in insertion order. *)

Definition arrayIndex (key : string) : option N :=
  match key with
  | EmptyString => None
  | String c rest =>
      if JsString.all JsString.isDigit key
         && (negb (Ascii.eqb c "0") || JsString.isEmpty rest) then
        let '(value, _, _) := JsNumber.digits 0 0 key in
        if (value <=? 4294967294)%Z then Some (Z.to_N value) else None
      else None
  end.

Fixpoint insertIndexed {A : Type} (i : N) (entry : string * A)
    (sorted : list (N * (string * A))) : list (N * (string * A)) :=
  match sorted with
  | [] => [(i, entry)]
  | (j, e) :: rest =>
      if (i <? j)%N then (i, entry) :: sorted
      else (j, e) :: insertIndexed i entry rest
  end.

(** The entries whose key is an array index, sorted by index. *)
Fixpoint indexedEntries {A : Type} (o : list (string * A)) : list (N * (string * A)) :=
  match o with
  | [] => []
  | (k, v) :: rest =>
      match arrayIndex k with
      | Some i => insertIndexed i (k, v) (indexedEntries rest)
      | None => indexedEntries rest
      end
  end.

Definition namedEntries {A : Type} (o : list (string * A)) : list (string * A) :=
  List.filter (fun e => negb (bool_decide (is_Some (arrayIndex (fst e))))) o.

(** [Object.entries(o)] *)
Definition entries {A : Type} (o : list (string * A)) : list (string * A) :=
  List.map snd (indexedEntries o) ++ namedEntries o.

(** *** The front end's list of groups
<<
function groupKeys(rows, groupByColumn) {
  if (!groupByColumn) { return ['all']; }
  const keys = new Set();
  for (const row of rows) {
    const key = (row[groupByColumn] ?? '').toString().trim() || '(leeg)';
    keys.add(key);
  }
  return [...keys];
}
>> *)
Definition setAdd (keys : list string) (key : string) : list string :=
  if existsb (String.eqb key) keys then keys else keys ++ [key].

Definition groupKeys (rows : list Row) (groupByColumn : option string) : list string :=
  match groupByColumn with
  | None => [SINGLE_KEY]
  | Some column =>
      if JsString.isEmpty column then [SINGLE_KEY]
      else fold_left (fun keys row => setAdd keys (groupKeyOf column row)) rows []
  end.
(** ** The handler of [POST /api/import] *)

(** A normalised transaction.  [date], [payee] and [notes] are read off
    the mapped row and are [undefined] when it has no such property;
    [amount] is a number or [null]. *)
Record Transaction : Type := {
  date : JsValue;
  payee : JsValue;
  notes : JsValue;
  amount : option Q
}.

Record GroupResult : Type := {
  group : string;
  accountId : JsValue;
  transactionCount : nat;
  invalidCount : nat;
  preview : list Transaction
}.

Record ImportResult : Type := {
  resultDryRun : bool;
  groups : list GroupResult;
  totalTransactions : nat;
  totalInvalid : nat
}.

Record ActualConfig : Type := {
  serverUrl : option string;
  password : option string;
  budgetId : option string
}.

(** The members of [req.body] the handler reads.  [None] is an absent
    member; [rows] is [None] also when it is not an array, [mapping] also
    when it is falsy. *)
Record Request : Type := {
  rows : option (list Row);
  mapping : option Mapping;
  groupByColumn : option string;
  accountMapping : option (gmap string string);
  dryRun : option bool;
  actualConfig : option ActualConfig
}.

(** The variables of [process.env] the handler reads. *)
Record Env : Type := {
  MOCK_ACTUAL : option string;
  ACTUAL_SERVER_URL : option string;
  ACTUAL_PASSWORD : option string;
  ACTUAL_BUDGET_ID : option string
}.

(** One call of [fetch] to [.../api/import-transactions]: the URL and the
    members of the JSON body. *)
Record FetchCall : Type := {
  url : string;
  bodyPassword : string;
  bodyBudgetId : string;
  bodyAccountId : JsValue;
  transactions : list Transaction
}.

(** What the call comes back with: a response with [ok] set, a response
    without it (whose text is [detail]), or a rejected promise. *)
Inductive FetchResponse : Type :=
| ResponseOk
| ResponseNotOk (detail : string)
| FetchRejected.

(** The ledger service: the response to a call, given the calls already
    made. *)
Definition Ledger : Type := list FetchCall -> FetchCall -> FetchResponse.

(** What the client of the handler receives. *)
Inductive Reply : Type :=
| Status400 (error : string)
| Status502 (error : string) (details : string)
| Status200 (result : ImportResult).

(** How a run of the handler ends: with a reply, or with an exception
    that nothing catches (the handler has no [try]). *)
Inductive Outcome : Type :=
| Replied (reply : Reply)
| Uncaught (e : Exception).

(** [a || b] on strings that may be [undefined]. *)
Definition orElse (a : option string) (b : string) : string :=
  match a with
  | Some s => if JsString.isEmpty s then b else s
  | None => b
  end.

(** [{ date: row.date, payee: row.payee, notes: row.notes,
       amount: parseAmount(row.amount) }] *)
Definition normalize (row : Row) : Transaction :=
  {| date := jsGet row "date";
     payee := jsGet row "payee";
     notes := jsGet row "notes";
     amount := parseAmount (jsGet row "amount") |}.

(** [row.amount !== null && row.date] *)
Definition isValid (t : Transaction) : bool :=
  bool_decide (is_Some (amount t)) && truthy (date t).

(** [row.amount === null || !row.date] *)
Definition isInvalid (t : Transaction) : bool :=
  negb (bool_decide (is_Some (amount t))) || negb (truthy (date t)).

(** [accountMapping?.[group] || null] *)
Definition resolveAccount (accountMapping : option (gmap string string)) (group : string) : JsValue :=
  let value :=
    match accountMapping with
    | Some m => jsGet m group
    | None => JsUndefined
    end in
  if truthy value then value else JsNull.

Definition sumOf (f : GroupResult -> nat) (result : list GroupResult) : nat :=
  fold_left (fun sum item => sum + f item) result 0.

(** The body of the final [res.json]:
<<
{ dryRun, groups: result,
  totalTransactions: result.reduce((sum, item) => sum + item.transactionCount, 0),
  totalInvalid: result.reduce((sum, item) => sum + item.invalidCount, 0) }
>> *)
Definition importResult (dryRun : bool) (result : list GroupResult) : ImportResult :=
  {| resultDryRun := dryRun;
     groups := result;
     totalTransactions := sumOf transactionCount result;
     totalInvalid := sumOf invalidCount result |}.

(** The entry of the account mapping for a group, if there is one. *)
Definition accountEntry (accountMapping : option (gmap string string)) (group : string) : option string :=
  accountMapping ≫= (fun m => m !! group).

Section ImportHandler.

Variable env : Env.
Variable fetch : Ledger.
Variable req : Request.

(** [const { ..., dryRun = true, ... } = req.body || {}] *)
Definition dryRunFlag : bool := default true (dryRun req).

Definition mockActual : bool := bool_decide (MOCK_ACTUAL env = Some "true").

(** [(actualConfig?.serverUrl || process.env.ACTUAL_SERVER_URL || '').trim()] *)
Definition effectiveServerUrl : string :=
  JsString.trim
    (orElse (actualConfig req ≫= serverUrl) (orElse (ACTUAL_SERVER_URL env) "")).

Definition effectivePassword : string :=
  orElse (actualConfig req ≫= password) (orElse (ACTUAL_PASSWORD env) "").

Definition effectiveBudgetId : string :=
  orElse (actualConfig req ≫= budgetId) (orElse (ACTUAL_BUDGET_ID env) "").

(** The transactions of one group:
    [mapRows(groupRowsData, mapping).map(...)]. *)
Definition normalized (m : Mapping) (groupRowsData : list Row) : list Transaction :=
  List.map normalize (mapRows groupRowsData m).

Definition groupResult (m : Mapping) (group : string) (groupRowsData : list Row) : GroupResult :=
  {| group := group;
     accountId := resolveAccount (accountMapping req) group;
     transactionCount := length (normalized m groupRowsData);
     invalidCount := length (List.filter isInvalid (normalized m groupRowsData));
     preview := take 5 (normalized m groupRowsData) |}.

Definition importCall (m : Mapping) (group : string) (groupRowsData : list Row) : FetchCall :=
  {| url := (JsString.stripTrailingSlash effectiveServerUrl ++ "/api/import-transactions")%string;
     bodyPassword := effectivePassword;
     bodyBudgetId := effectiveBudgetId;
     bodyAccountId := resolveAccount (accountMapping req) group;
     transactions := List.filter isValid (normalized m groupRowsData) |}.

Definition missingAccount (group : string) : string :=
  ("Geen account gekoppeld voor groep '" ++ group ++ "'.")%string.

Definition importFailed (group : string) : string :=
  ("Import naar Actual mislukt voor groep '" ++ group ++ "'.")%string.

(** The [for] loop over [Object.entries(grouped)] and the final
    [res.json]: [todo] are the groups still to visit, [result] the
    array built so far, [calls] the calls of [fetch] made so far. *)
Fixpoint importLoop (m : Mapping) (todo : Groups)
    (result : list GroupResult) (calls : list FetchCall) : Outcome * list FetchCall :=
  match todo with
  | [] =>
      (Replied (Status200 (importResult dryRunFlag result)), calls)
  | (group, groupRowsData) :: rest =>
      let result := result ++ [groupResult m group groupRowsData] in
      if dryRunFlag || mockActual then importLoop m rest result calls
      else if JsString.isEmpty effectiveServerUrl then
        (Replied (Status400 "ACTUAL_SERVER_URL ontbreekt voor import."), calls)
      else if negb (truthy (resolveAccount (accountMapping req) group)) then
        (Replied (Status400 (missingAccount group)), calls)
      else
        let call := importCall m group groupRowsData in
        match fetch calls call with
        | ResponseOk => importLoop m rest result (calls ++ [call])
        | ResponseNotOk detail =>
            (Replied (Status502 (importFailed group) detail), calls ++ [call])
        | FetchRejected => (Uncaught FetchError, calls ++ [call])
        end
  end.

(** [app.post('/api/import', async (req, res) => { ... })] *)
Definition importHandler : Outcome * list FetchCall :=
  match rows req, mapping req with
  | Some rows, Some m =>
      match groupRows rows (groupByColumn req) with
      | Normal grouped => importLoop m (entries grouped) [] []
      | Throw e => (Uncaught e, [])
      end
  | _, _ => (Replied (Status400 "rows en mapping zijn verplicht."), [])
  end.

End ImportHandler.

(** The handler is in live mode when neither the request's flag nor the
    [MOCK_ACTUAL] switch sends the loop to [continue]. *)
Definition liveMode (env : Env) (req : Request) : bool :=
  negb (dryRunFlag req || mockActual env).
(** *** Vocabulary for the properties of the loop *)

Definition resultOf (req : Request) (m : Mapping) (e : string * list Row) : GroupResult :=
  groupResult req m (fst e) (snd e).

Definition callOf (env : Env) (req : Request) (m : Mapping) (e : string * list Row) : FetchCall :=
  importCall env req m (fst e) (snd e).

(** The outcome when the call for a group was not answered with [ok]:
    the 502 reply of the handler, or the exception of [fetch]. *)
Definition failure (group : string) (response : FetchResponse) : Outcome :=
  match response with
  | ResponseNotOk detail => Replied (Status502 (importFailed group) detail)
  | _ => Uncaught FetchError
  end.

(** Every group of [done] has an account and its call, made after
    [calls] and the calls of the groups before it, is answered with
    [ok]. *)
Definition passes (env : Env) (fetch : Ledger) (req : Request) (m : Mapping)
    (calls : list FetchCall) (done : Groups) : Prop :=
  forall j e, done !! j = Some e ->
    truthy (resolveAccount (accountMapping req) (fst e)) = true /\
    fetch (calls ++ List.map (callOf env req m) (take j done)) (callOf env req m e) = ResponseOk.

(** ** Sample data used by the examples below *)

Definition direct (c : string) : option Rule :=
  Some {| type := Some "direct"; column := Some c; columns := Some []; separator := Some " " |}.

Definition noEnv : Env :=
  {| MOCK_ACTUAL := None; ACTUAL_SERVER_URL := None;
     ACTUAL_PASSWORD := None; ACTUAL_BUDGET_ID := None |}.

Definition alwaysOk : Ledger := fun _ _ => ResponseOk.

Definition bankRow (datum bedrag naam : string) : Row :=
  {[ "Datum" := datum; "Bedrag" := bedrag; "Naam" := naam ]}.

Definition fullMapping : Mapping :=
  [("date", direct "Datum"); ("amount", direct "Bedrag");
   ("payee", direct "Naam"); ("notes", None)].

(** The same without a member for [notes]. *)
Definition threeRules : Mapping :=
  [("date", direct "Datum"); ("amount", direct "Bedrag"); ("payee", direct "Naam")].

(** A mapping with a rule for [date] only. *)
Definition dateOnly : Mapping := [("date", direct "Datum")].

(** The merge rule of columns [a] and [b] with separator [-]. *)
Definition mergeRule : Rule :=
  {| type := Some "merge"; column := None;
     columns := Some ["a"; "b"]; separator := Some "-" |}.

(** A server whose URL comes from the environment. *)
Definition liveEnv : Env :=
  {| MOCK_ACTUAL := None; ACTUAL_SERVER_URL := Some "https://actual.example.com/";
     ACTUAL_PASSWORD := Some "geheim"; ACTUAL_BUDGET_ID := Some "budget-main" |}.

(** A ledger that refuses the second call it receives. *)
Definition refuseSecond : Ledger :=
  fun calls _ =>
    if Nat.eqb (length calls) 1 then ResponseNotOk "account closed" else ResponseOk.

(** A ledger that cannot be reached for the second call: [fetch]
    rejects. *)
Definition rejectSecond : Ledger :=
  fun calls _ =>
    if Nat.eqb (length calls) 1 then FetchRejected else ResponseOk.

Definition accountRow (rekening datum bedrag : string) : Row :=
  {[ "Rekening" := rekening; "Datum" := datum; "Bedrag" := bedrag ]}.

(** Four rows in three groups; the only row of [Creditcard] has neither
    a date nor an amount. *)
Definition threeGroupRows : list Row :=
  [ accountRow "Betaal" "01-01-2024" "12,50";
    accountRow "Spaar" "02-01-2024" "1.000,00";
    accountRow "Betaal" "03-01-2024" "-7,25";
    accountRow "Creditcard" "" "-" ].

Definition accountRules : Mapping :=
  [("date", direct "Datum"); ("amount", direct "Bedrag");
   ("payee", direct "Rekening"); ("notes", None)].

Definition allAccounts : gmap string string :=
  {[ "Betaal" := "acc-checking"; "Spaar" := "acc-savings"; "Creditcard" := "acc-card" ]}.

Definition someAccounts : gmap string string :=
  {[ "Betaal" := "acc-checking"; "Creditcard" := "acc-card" ]}.

Definition groupedRequest (dry : option bool) (accounts : gmap string string) : Request :=
  {| rows := Some threeGroupRows;
     mapping := Some accountRules;
     groupByColumn := Some "Rekening";
     accountMapping := Some accounts;
     dryRun := dry;
     actualConfig := None |}.

(** The groups of [threeGroupRows], as [groupRows] builds them. *)
Definition threeGroups : Groups :=
  [ ("Betaal", [ accountRow "Betaal" "01-01-2024" "12,50";
                 accountRow "Betaal" "03-01-2024" "-7,25" ]);
    ("Spaar", [ accountRow "Spaar" "02-01-2024" "1.000,00" ]);
    ("Creditcard", [ accountRow "Creditcard" "" "-" ]) ].

(** A dry-run request without account mapping. *)
Definition dryRequest (rs : list Row) (m : Mapping) (col : option string) : Request :=
  {| rows := Some rs; mapping := Some m; groupByColumn := col;
     accountMapping := None; dryRun := Some true; actualConfig := None |}.

Definition yearRows : list Row :=
  [ {[ "Jaar" := "2024" ]}; {[ "Jaar" := "2023" ]}; {[ "Jaar" := "2024" ]} ].

Definition constructorRows : list Row := [ {[ "Naam" := "constructor" ]} ].


Definition spacedRow : Row := {[ "Rekening" := " Betaalrekening " ]}.



(** ** Vocabulary for the further properties *)

(** The characters of a cell that [parseAmount] does not throw away: the
    digits, the comma and the minus sign. *)
Definition amountSignificant (c : ascii) : bool :=
  JsString.isDigit c || Ascii.eqb c "," || Ascii.eqb c "-".

(** A rule with its list of columns replaced. *)
Definition withColumns (rule : Rule) (cols : list string) : Rule :=
  {| type := type rule; column := column rule;
     columns := Some cols; separator := separator rule |}.

(** The string a member of the mapping puts in the mapped row. *)
Definition ruleValue (row : Row) (rule : option Rule) : string :=
  match rule with
  | None => ""
  | Some rule => applyRule row rule
  end.

(** ** The mapping the front end builds

<<
function getInitialRule(headers) {
  return { type: 'direct', column: headers[0] || '', columns: [], separator: ' ' };
}
>> *)
Definition getInitialRule (headers : list string) : Rule :=
  {| type := Some "direct";
     column := Some (match headers with
                     | first :: _ => if JsString.isEmpty first then "" else first
                     | [] => ""
                     end);
     columns := Some [];
     separator := Some " " |}.

(** The mapping [uploadCsv] installs:
<<
const nextMapping = {};
for (const field of TARGET_FIELDS) {
  nextMapping[field.key] = getInitialRule(payload.headers || []);
}
>> *)
Definition initialMapping (headers : list string) : Mapping :=
  List.map (fun key => (key, Some (getInitialRule headers))) TARGET_FIELDS.

(** [{ ...base, ...patch }] on rules: the members the patch has replace
    those of the base. *)
Definition spreadRule (base patch : Rule) : Rule :=
  {| type := match type patch with Some v => Some v | None => type base end;
     column := match column patch with Some v => Some v | None => column base end;
     columns := match columns patch with Some v => Some v | None => columns base end;
     separator := match separator patch with Some v => Some v | None => separator base end |}.

(** [{ ...prev, [key]: rule }]: the member is replaced where it is, or
    added at the end. *)
Fixpoint spreadMember (prev : Mapping) (key : string) (rule : option Rule) : Mapping :=
  match prev with
  | [] => [(key, rule)]
  | (k, r) :: rest =>
      if String.eqb k key then (k, rule) :: rest
      else (k, r) :: spreadMember rest key rule
  end.

(**
<<
function updateRule(fieldKey, patch) {
  setMapping((prev) => ({
    ...prev,
    [fieldKey]: { ...(prev[fieldKey] || getInitialRule(headers)), ...patch }
  }));
}
>> *)
Definition updateRule (headers : list string) (prev : Mapping)
    (fieldKey : string) (patch : Rule) : Mapping :=
  spreadMember prev fieldKey
    (Some (spreadRule (default (getInitialRule headers) (mappingGet prev fieldKey)) patch)).

(** The mapping after a series of edits in the form. *)
Definition editedMapping (headers : list string) (edits : list (string * Rule)) : Mapping :=
  fold_left (fun m edit => updateRule headers m (fst edit) (snd edit))
            edits (initialMapping headers).

(** Sample: the rule of the form switched to a merge of two columns. *)
Definition mergePatch : Rule :=
  {| type := Some "merge"; column := Some "Datum";
     columns := Some []; separator := Some " " |}.

Definition columnsPatch (cols : list string) : Rule :=
  {| type := None; column := None; columns := Some cols; separator := None |}.

Definition columnPatch (c : string) : Rule :=
  {| type := None; column := Some c; columns := None; separator := None |}.

Definition sampleEdits : list (string * Rule) :=
  [ ("amount", columnPatch "Bedrag"); ("payee", columnPatch "Naam");
    ("notes", mergePatch); ("notes", columnsPatch ["Naam"; "Bedrag"]) ].

Definition directRule (c : string) : Rule :=
  {| type := Some "direct"; column := Some c; columns := Some []; separator := Some " " |}.

(** The number of transactions a list of calls carries. *)
Definition posted (calls : list FetchCall) : nat :=
  list_sum (List.map (fun call => length (transactions call)) calls).

(** The account mapping has a non-empty entry for the group. *)
Definition hasAccount (accounts : option (gmap string string)) (group : string) : Prop :=
  exists account, accountEntry accounts group = Some account /\ account <> "".

(** An environment in which [MOCK_ACTUAL] is set. *)
Definition mockEnv : Env :=
  {| MOCK_ACTUAL := Some "true"; ACTUAL_SERVER_URL := None;
     ACTUAL_PASSWORD := None; ACTUAL_BUDGET_ID := None |}.

(** A request without rows, to be imported for real. *)
Definition emptyRequest (col : option string) (accounts : gmap string string) : Request :=
  {| rows := Some []; mapping := Some accountRules; groupByColumn := col;
     accountMapping := Some accounts; dryRun := Some false; actualConfig := None |}.

(** ** The delimiter of an uploaded file (server)

    [firstLine] is [(csvText || '').split(/\r?\n/, 1)[0] || '']: the text
    before the first line feed, or before the carriage return that
    precedes it. *)
Fixpoint firstLine (csvText : string) : string :=
  match csvText with
  | EmptyString => EmptyString
  | String c rest =>
      if Ascii.eqb c "010" then EmptyString
      else if Ascii.eqb c "013"
              && match rest with String d _ => Ascii.eqb d "010" | EmptyString => false end
      then EmptyString
      else String c (firstLine rest)
  end.

Fixpoint occurrences (c : ascii) (s : string) : nat :=
  match s with
  | EmptyString => 0
  | String d rest => (if Ascii.eqb c d then 1 else 0) + occurrences c rest
  end.

(** [line.split(candidate).length] for a separator of one character. *)
Definition splitLength (candidate : ascii) (line : string) : Z :=
  Z.of_nat (S (occurrences candidate line)).

Definition candidates : list ascii := [";"%char; ","%char; "009"%char].

(**
<<
function detectDelimiter(csvText) {
  const firstLine = (csvText || '').split(/\r?\n/, 1)[0] || '';
  const candidates = [';', ',', '\t'];
  let best = ';';
  let bestCount = -1;
  for (const candidate of candidates) {
    const count = firstLine.split(candidate).length;
    if (count > bestCount) { bestCount = count; best = candidate; }
  }
  return best;
}
>> *)
Definition detectDelimiter (csvText : string) : ascii :=
  let line := firstLine csvText in
  fst (fold_left
         (fun '(best, bestCount) candidate =>
            let count := splitLength candidate line in
            if (bestCount <? count)%Z then (candidate, count) else (best, bestCount))
         candidates (";"%char, (-1)%Z)).

(** ** JSON values

    What [response.json()] and [JSON.parse] return.  A number is kept as
    the text [String] writes for it (so [0] and [-0] are both ["0"]);
    the members of an object are its own properties. *)
#[local] Set Warnings "-register-all".
Inductive Json : Type :=
| JsonNull
| JsonBool (b : bool)
| JsonNumber (text : string)
| JsonString (s : string)
| JsonArray (items : list Json)
| JsonObject (members : list (string * Json)).

Fixpoint memberOf (members : list (string * Json)) (key : string) : option Json :=
  match members with
  | [] => None
  | (k, v) :: rest => if String.eqb k key then Some v else memberOf rest key
  end.

(** What [String] throws for an object it cannot convert. *)
Definition cannotConvert : Exception :=
  TypeError "Cannot convert object to primitive value".

(** [items.join(separator)] before the texts are put together: the
    elements are converted from left to right by [text], [null] is
    written as the empty string. *)
Section Join.

Variable text : Json -> Completion string.

Fixpoint joinTexts (items : list Json) : Completion (list string) :=
  match items with
  | [] => Normal []
  | item :: rest =>
      match (match item with
             | JsonNull => Normal ""
             | _ => text item
             end) with
      | Throw e => Throw e
      | Normal first =>
          match joinTexts rest with
          | Throw e => Throw e
          | Normal texts => Normal (first :: texts)
          end
      end
  end.

End Join.

(** [String(j)], and the text a template literal writes for [j].

    An array is joined with commas.  An object is converted
    by its [toString], then its [valueOf]: a parsed object inherits both
    from [Object.prototype] and is written [[object Object]], unless it
    has a member [toString] of its own.  No JSON value is a function, so
    that member is skipped, [valueOf] (inherited, or an own member that
    is skipped too) gives no primitive, and the conversion throws. *)
Fixpoint jsonToString (j : Json) : Completion string :=
  match j with
  | JsonNull => Normal "null"
  | JsonBool true => Normal "true"
  | JsonBool false => Normal "false"
  | JsonNumber text => Normal text
  | JsonString s => Normal s
  | JsonArray items =>
      match joinTexts jsonToString items with
      | Throw e => Throw e
      | Normal texts => Normal (String.concat "," texts)
      end
  | JsonObject members =>
      match memberOf members "toString" with
      | Some _ => Throw cannotConvert
      | None => Normal "[object Object]"
      end
  end.

(** Truthiness of a JSON value. *)
Definition jsonTruthy (j : Json) : bool :=
  match j with
  | JsonNull => false
  | JsonBool b => b
  | JsonNumber text => negb (String.eqb text "0")
  | JsonString s => negb (JsString.isEmpty s)
  | JsonArray _ | JsonObject _ => true
  end.

(** [j?.key], for the keys the server and the form read ([accounts],
    [budgets], [data], [id], [uuid], [name], [error], ...), which no
    prototype has: only an object can have them. *)
Definition jsonMember (j : Json) (key : string) : option Json :=
  match j with
  | JsonObject members => memberOf members key
  | _ => None
  end.

(** [a ?? b]: [b] when [a] is [undefined] or [null]. *)
Definition nullish (a b : option Json) : option Json :=
  match a with
  | None | Some JsonNull => b
  | _ => a
  end.

(** ** The listings of accounts and budgets (server)
<<
function extractAccountList(payload) {
  if (Array.isArray(payload)) { return payload; }
  if (Array.isArray(payload?.accounts)) { return payload.accounts; }
  if (Array.isArray(payload?.data?.accounts)) { return payload.data.accounts; }
  return [];
}
>> *)
Definition extractAccountList (payload : Json) : list Json :=
  match payload with
  | JsonArray items => items
  | _ =>
      match jsonMember payload "accounts" with
      | Some (JsonArray items) => items
      | _ =>
          match jsonMember payload "data" ≫= (fun data => jsonMember data "accounts") with
          | Some (JsonArray items) => items
          | _ => []
          end
      end
  end.

(**
<<
function extractBudgetList(payload) {
  if (Array.isArray(payload?.budgets)) { return payload.budgets; }
  if (Array.isArray(payload?.data?.budgets)) { return payload.data.budgets; }
  return [];
}
>> *)
Definition extractBudgetList (payload : Json) : list Json :=
  match jsonMember payload "budgets" with
  | Some (JsonArray items) => items
  | _ =>
      match jsonMember payload "data" ≫= (fun data => jsonMember data "budgets") with
      | Some (JsonArray items) => items
      | _ => []
      end
  end.

(** An entry of a listing: [{ id, name, raw }]; the entries of the mock
    listings have no [raw]. *)
Record Listed : Type := {
  entryId : string;
  entryName : string;
  entryRaw : option Json
}.

(** [String(a ?? b ?? c ?? fallback)] *)
Definition firstOf (a b c : option Json) (fallback : string) : Completion string :=
  match nullish (nullish a b) c with
  | None | Some JsonNull => Normal fallback
  | Some j => jsonToString j
  end.

(** Reading a property of [null] throws. *)
Definition readsNull : Exception :=
  TypeError "Cannot read properties of null (reading 'id')".

(**
<<
function shapeAccount(account) {
  return {
    id: String(account.id ?? account.uuid ?? account.accountId ?? ''),
    name: String(account.name ?? account.accountName ?? 'Onbekende rekening'),
    raw: account
  };
}
>> *)
Definition shapeAccount (account : Json) : Completion Listed :=
  match account with
  | JsonNull => Throw readsNull
  | _ =>
      match firstOf (jsonMember account "id") (jsonMember account "uuid")
                    (jsonMember account "accountId") "" with
      | Throw e => Throw e
      | Normal id =>
          match firstOf (jsonMember account "name") (jsonMember account "accountName")
                        None "Onbekende rekening" with
          | Throw e => Throw e
          | Normal name =>
              Normal {| entryId := id; entryName := name; entryRaw := Some account |}
          end
      end
  end.

(**
<<
function shapeBudget(budget) {
  return {
    id: String(budget.id ?? budget.uuid ?? budget.budgetId ?? ''),
    name: String(budget.name ?? budget.budgetName ?? 'Onbekend budget'),
    raw: budget
  };
}
>> *)
Definition shapeBudget (budget : Json) : Completion Listed :=
  match budget with
  | JsonNull => Throw readsNull
  | _ =>
      match firstOf (jsonMember budget "id") (jsonMember budget "uuid")
                    (jsonMember budget "budgetId") "" with
      | Throw e => Throw e
      | Normal id =>
          match firstOf (jsonMember budget "name") (jsonMember budget "budgetName")
                        None "Onbekend budget" with
          | Throw e => Throw e
          | Normal name =>
              Normal {| entryId := id; entryName := name; entryRaw := Some budget |}
          end
      end
  end.

(** [items.map(shape)]: the first exception ends the map. *)
Fixpoint shapeAll (shape : Json -> Completion Listed) (items : list Json)
    : Completion (list Listed) :=
  match items with
  | [] => Normal []
  | item :: rest =>
      match shape item with
      | Throw e => Throw e
      | Normal entry =>
          match shapeAll shape rest with
          | Throw e => Throw e
          | Normal entries => Normal (entry :: entries)
          end
      end
  end.

(** [.filter((entry) => entry.id)] *)
Definition withId (entries : list Listed) : list Listed :=
  List.filter (fun entry => negb (JsString.isEmpty (entryId entry))) entries.

(** The call of a listing: the URL and the members of the body (the
    budgets are asked for without [budgetId]). *)
Record ListCall : Type := {
  listUrl : string;
  listPassword : string;
  listBudgetId : option string
}.

(** What the call comes back with: [ok] and a body that parses, [ok] and
    a body for which [response.json()] fails with a message, a status
    that is not [ok] with the text of the body, or a [fetch] that fails
    with a message. *)
Inductive ListResponse : Type :=
| ListOk (payload : Json)
| ListUnparsable (message : string)
| ListNotOk (status : string) (detail : string)
| ListRejected (message : string).

Inductive ListReply : Type :=
| Listing (entries : list Listed)
| ListStatus400 (error : string)
| ListStatus502 (error : string) (details : string).

(** The [message] of what the [try] block throws. *)
Definition thrownMessage (e : Exception) : string :=
  match e with
  | TypeError message => message
  | FetchError => "fetch failed"
  end.

(** The body of the [try] of both handlers and its [catch]. *)
Definition listFromLedger (fetch : ListCall -> ListResponse) (call : ListCall)
    (extract : Json -> list Json) (shape : Json -> Completion Listed)
    (error : string) : ListReply :=
  match fetch call with
  | ListRejected message => ListStatus502 error message
  | ListNotOk status detail =>
      ListStatus502 error ("Actual API fout (" ++ status ++ "): " ++ detail)
  | ListUnparsable message => ListStatus502 error message
  | ListOk payload =>
      match shapeAll shape (extract payload) with
      | Throw e => ListStatus502 error (thrownMessage e)
      | Normal entries => Listing (withId entries)
      end
  end.

Definition mockAccounts : list Listed :=
  [ {| entryId := "acc-checking"; entryName := "Rabo Betaalrekening"; entryRaw := None |};
    {| entryId := "acc-savings"; entryName := "Rabo Spaarrekening"; entryRaw := None |} ].

Definition mockBudgets : list Listed :=
  [ {| entryId := "budget-main"; entryName := "Main Budget"; entryRaw := None |};
    {| entryId := "budget-personal"; entryName := "Personal Budget"; entryRaw := None |} ].

(** [app.post('/api/actual/accounts', ...)]: the reply and the calls
    made. *)
Definition accountsHandler (env : Env) (fetch : ListCall -> ListResponse)
    (body : option ActualConfig) : ListReply * list ListCall :=
  let serverUrl :=
    JsString.trim (orElse (body ≫= serverUrl) (orElse (ACTUAL_SERVER_URL env) "")) in
  let password := orElse (body ≫= password) (orElse (ACTUAL_PASSWORD env) "") in
  let budgetId := orElse (body ≫= budgetId) (orElse (ACTUAL_BUDGET_ID env) "") in
  if mockActual env then (Listing mockAccounts, [])
  else if JsString.isEmpty serverUrl then (ListStatus400 "ACTUAL_SERVER_URL ontbreekt.", [])
  else
    let call :=
      {| listUrl := (JsString.stripTrailingSlash serverUrl ++ "/api/accounts")%string;
         listPassword := password;
         listBudgetId := Some budgetId |} in
    (listFromLedger fetch call extractAccountList shapeAccount
       "Kon rekeningen niet ophalen bij Actual API.", [call]).

(** [app.post('/api/actual/budgets', ...)] *)
Definition budgetsHandler (env : Env) (fetch : ListCall -> ListResponse)
    (body : option ActualConfig) : ListReply * list ListCall :=
  let serverUrl :=
    JsString.trim (orElse (body ≫= serverUrl) (orElse (ACTUAL_SERVER_URL env) "")) in
  let password := orElse (body ≫= password) (orElse (ACTUAL_PASSWORD env) "") in
  if mockActual env then (Listing mockBudgets, [])
  else if JsString.isEmpty serverUrl then (ListStatus400 "ACTUAL_SERVER_URL ontbreekt.", [])
  else
    let call :=
      {| listUrl := (JsString.stripTrailingSlash serverUrl ++ "/api/budgets")%string;
         listPassword := password;
         listBudgetId := None |} in
    (listFromLedger fetch call extractBudgetList shapeBudget
       "Kon budget IDs niet ophalen bij Actual API.", [call]).

(** *** Vocabulary and samples for the listings *)

(** An entry as a ledger sends it: [{ "id": ..., "name": ... }]. *)
Definition listedObject (entry : string * string) : Json :=
  JsonObject [("id", JsonString (fst entry)); ("name", JsonString (snd entry))].

(** The entry the handlers make of it. *)
Definition listedEntry (entry : string * string) : Listed :=
  {| entryId := fst entry; entryName := snd entry; entryRaw := Some (listedObject entry) |}.

(** A ledger that answers every call with the same body. *)
Definition answering (payload : Json) : ListCall -> ListResponse :=
  fun _ => ListOk payload.

Definition sampleConfig : option ActualConfig :=
  Some {| serverUrl := Some " https://actual.example.com/ ";
          password := Some "geheim"; budgetId := Some "budget-main" |}.

Definition sampleListing : list (string * string) :=
  [ ("acc-1", "Betaalrekening"); ("acc-2", "Spaarrekening") ].

(** ** Messages of the form (front end) *)

Definition newline : string := String "010" EmptyString.

(** [payload?.key] when it is truthy. *)
Definition truthyMember (payload : option Json) (key : string) : option Json :=
  match payload ≫= (fun p => jsonMember p key) with
  | Some v => if jsonTruthy v then Some v else None
  | None => None
  end.

(** A line made with a template literal: [`prefix${value}`]. *)
Definition templateLine (prefix : string) (value : Json) : Completion (list Json) :=
  match jsonToString value with
  | Throw e => Throw e
  | Normal text => Normal [JsonString (prefix ++ text)%string]
  end.

Definition fallbackLine (prefix : string) (fallback : option string) : list Json :=
  match fallback with
  | Some text => if JsString.isEmpty text then [] else [JsonString (prefix ++ text)]
  | None => []
  end.

(**
<<
function parseApiMessage(payload, fallbackError, fallbackHint) {
  const lines = [];
  if (payload?.error) { lines.push(payload.error); }
  else if (fallbackError) { lines.push(fallbackError); }
  if (payload?.details) { lines.push(`Details: ${payload.details}`); }
  if (payload?.hint || fallbackHint) { lines.push(`Tip: ${payload?.hint || fallbackHint}`); }
  return lines.filter(Boolean).join('\n');
}
>> *)
Definition parseApiMessage (payload : option Json)
    (fallbackError fallbackHint : option string) : Completion string :=
  let errorLine :=
    match truthyMember payload "error" with
    | Some error => [error]
    | None => fallbackLine "" fallbackError
    end in
  match (match truthyMember payload "details" with
         | Some details => templateLine "Details: " details
         | None => Normal []
         end) with
  | Throw e => Throw e
  | Normal detailsLine =>
      match (match truthyMember payload "hint" with
             | Some hint => templateLine "Tip: " hint
             | None => Normal (fallbackLine "Tip: " fallbackHint)
             end) with
      | Throw e => Throw e
      | Normal hintLine =>
          match joinTexts jsonToString
                  (List.filter jsonTruthy (errorLine ++ detailsLine ++ hintLine)) with
          | Throw e => Throw e
          | Normal texts => Normal (String.concat newline texts)
          end
      end
  end.

(** The body of the server's error replies: [res.status(...).json({ error })]
    and [res.status(502).json({ error, details })]. *)
Definition errorBody (reply : Reply) : option Json :=
  match reply with
  | Status400 error => Some (JsonObject [("error", JsonString error)])
  | Status502 error details =>
      Some (JsonObject [("error", JsonString error); ("details", JsonString details)])
  | Status200 _ => None
  end.

Definition importHint : string :=
  "Controleer mapping, account-koppeling en Actual configuratie.".

Definition backendHint : string :=
  "Controleer of de backend draait en probeer opnieuw.".

(** The message [runImport] shows for a reply of the server; [dryRun] is
    the state of the check box.  What [parseApiMessage] throws is caught
    by the [catch] of [runImport], which shows the exception's message as
    a network failure. *)
Definition runImportMessage (dryRun : bool) (reply : Reply) : Completion string :=
  match reply with
  | Status200 _ => Normal (if dryRun then "Dry-run afgerond." else "Import afgerond.")
  | _ =>
      match parseApiMessage (errorBody reply) (Some "Import mislukt.") (Some importHint) with
      | Normal message => Normal message
      | Throw e =>
          parseApiMessage None
            (Some ("Netwerkfout tijdens import: " ++ thrownMessage e)%string)
            (Some backendHint)
      end
  end.

(** * Properties *)

(** ** Strings and amounts *)

Lemma keep_all p s : JsString.all p (JsString.keep p s) = true.
Proof.
  induction s as [|c s IH]; simpl; [reflexivity|].
  destruct (p c) eqn:Hc; simpl; [rewrite Hc|]; exact IH.
Qed.

(** [Number] is only ever applied to strings over [0-9 . -]. *)
Lemma stripped_alphabet text :
  JsString.all amountChar (normalizeAmountText text) = true.
Proof. apply keep_all. Qed.

Lemma isEmpty_true s : JsString.isEmpty s = true <-> s = "".
Proof. destruct s; simpl; split; congruence. Qed.

Lemma isEmpty_false s : JsString.isEmpty s = false <-> s <> "".
Proof. destruct s; simpl; split; congruence. Qed.

Example parseAmount_thousands :
  parseAmount (JsStr "1.234,56") = Some (JsNumber.decimal 123456 2).
Proof. vm_compute. reflexivity. Qed.

Example parseAmount_negative :
  parseAmount (JsStr "-12,50") = Some (JsNumber.decimal (-1250) 2).
Proof. vm_compute. reflexivity. Qed.

Example parseAmount_empty : parseAmount (JsStr "") = None.
Proof. reflexivity. Qed.

Example parseAmount_currency :
  parseAmount (JsStr " EUR 12,50 ") = Some (JsNumber.decimal 125 1).
Proof. vm_compute. reflexivity. Qed.

Example parseAmount_lone_minus : parseAmount (JsStr "-") = None.
Proof. reflexivity. Qed.

(** Whatever survives the trim but not the strip is read as zero. *)
Lemma parseAmount_stripped_empty text :
  JsString.trim text <> "" ->
  normalizeAmountText (JsString.trim text) = "" ->
  parseAmount (JsStr text) = Some 0%Q.
Proof.
  intros Hne Hstrip. unfold parseAmount. simpl normalizeCellValue.
  apply isEmpty_false in Hne. rewrite Hne, Hstrip. reflexivity.
Qed.

(** An empty cell, an [undefined] and a [null] have no amount. *)
Lemma parseAmount_blank text :
  JsString.trim text = "" -> parseAmount (JsStr text) = None.
Proof.
  intros H. unfold parseAmount. simpl normalizeCellValue. rewrite H. reflexivity.
Qed.

Lemma parseAmount_undefined : parseAmount JsUndefined = None.
Proof. reflexivity. Qed.

(** C5 (the vectors that hold): ["1.234,56"] is 1234.56, ["-12,50"] is
    -12.50 and the empty string has no amount. *)
Lemma parseAmount_vectors :
  parseAmount (JsStr "1.234,56") = Some (JsNumber.decimal 123456 2) /\
  parseAmount (JsStr "-12,50") = Some (JsNumber.decimal (-1250) 2) /\
  parseAmount (JsStr "") = None.
Proof. repeat split; vm_compute; reflexivity. Qed.

(** C5: [parseAmount("abc")] is not [null].  The strip leaves the empty
    string, [Number('')] is 0, and 0 is finite: the amount is 0.  The same
    happens for every text made of symbols only
    ([parseAmount_stripped_empty]); the specification asks for "none"
    there. *)
Theorem parseAmount_abc_is_zero :
  normalizeAmountText (normalizeCellValue (JsStr "abc")) = "" /\
  parseAmount (JsStr "abc") = Some 0%Q /\
  parseAmount (JsStr "abc") <> None.
Proof. repeat split; try reflexivity. discriminate. Qed.

(** ** The field mapper *)

Lemma dom_jsSet (o : Row) k v :
  dom (jsSet o k v) = if String.eqb k "__proto__" then dom o else {[k]} ∪ dom o.
Proof.
  unfold jsSet. destruct (String.eqb k "__proto__"); [reflexivity|].
  apply dom_insert_L.
Qed.

Lemma dom_mapField row (o : Row) entry :
  dom (mapField row o entry) = dom o ∪ list_to_set (ownKeys [entry]).
Proof.
  destruct entry as [k [rule|]]; unfold mapField, ownKeys; simpl;
    rewrite dom_jsSet; destruct (String.eqb k "__proto__"); simpl; set_solver.
Qed.

(** The mapped row has one property per key of the mapping (the key
    [__proto__] apart), whatever the four target fields are. *)
Lemma dom_mapRow mapping row :
  dom (mapRow mapping row) = list_to_set (ownKeys mapping).
Proof.
  unfold mapRow.
  enough (forall o : Row,
    dom (fold_left (mapField row) mapping o) = dom o ∪ list_to_set (ownKeys mapping)) as H.
  { rewrite H. set_solver. }
  induction mapping as [|entry mapping IH]; intros o; cbn [fold_left].
  - unfold ownKeys; simpl. set_solver.
  - rewrite IH, dom_mapField. unfold ownKeys. cbn [List.map List.filter].
    destruct (negb (String.eqb (fst entry) "__proto__")); simpl; set_solver.
Qed.

(** The front end's mapper does give the four target fields, for every
    mapping and every row. *)
Lemma dom_applyMappingRow mapping row :
  dom (applyMappingRow mapping row) = list_to_set TARGET_FIELDS.
Proof.
  unfold applyMappingRow, TARGET_FIELDS. cbn [fold_left].
  rewrite !dom_mapField. unfold ownKeys. simpl. set_solver.
Qed.

(** ... and a field without a rule is the empty string there. *)
Lemma applyMappingRow_no_rule mapping row field :
  field ∈ TARGET_FIELDS -> mappingGet mapping field = None ->
  applyMappingRow mapping row !! field = Some "".
Proof.
  intros Hin Hnone. unfold TARGET_FIELDS in Hin.
  assert (field = "date" \/ field = "amount" \/ field = "payee" \/ field = "notes")
    as Hcases by set_solver.
  unfold applyMappingRow, TARGET_FIELDS. simpl.
  destruct Hcases as [-> | [-> | [-> | ->]]]; rewrite Hnone; unfold mapField, jsSet; simpl;
    repeat (destruct (mappingGet mapping _)); simpl;
    repeat (first [rewrite lookup_insert_eq | rewrite lookup_insert_ne by discriminate]);
    reflexivity.
Qed.

(** C6: with a mapping that has a rule for [date] only, [mapRows] returns
    a row with the single property [date]; [amount], [payee] and [notes]
    are not empty strings but absent ([undefined] when read), whereas the
    specification asks for the four fields, each a string.  [applyMapping], on
    the same input, returns the four. *)
Theorem mapRows_omits_fields_without_rule :
  mapRows [bankRow "01-01-2024" "12,50" "X"] dateOnly = [ {[ "date" := "01-01-2024" ]} ] /\
  List.map (fun mapped => jsGet mapped "notes")
           (mapRows [bankRow "01-01-2024" "12,50" "X"] dateOnly) = [JsUndefined] /\
  applyMapping [bankRow "01-01-2024" "12,50" "X"] dateOnly =
    [ {[ "date" := "01-01-2024"; "amount" := ""; "payee" := ""; "notes" := "" ]} ].
Proof. repeat split; vm_compute; reflexivity. Qed.

(** ** Grouping *)

Section Grouping.

Variable column : string.

Lemma ownGet_ownPush acc key row k :
  ownGet (ownPush acc key row) k =
  if String.eqb key k then (fun rs => rs ++ [row]) <$> ownGet acc k else ownGet acc k.
Proof.
  induction acc as [|[k' rs] acc IH]; simpl.
  - destruct (String.eqb key k); reflexivity.
  - destruct (String.eqb k' key) eqn:Hk'; simpl.
    + apply String.eqb_eq in Hk'. subst k'.
      destruct (String.eqb key k); reflexivity.
    + destruct (String.eqb k' k) eqn:Hk.
      * apply String.eqb_eq in Hk. subst k'.
        rewrite String.eqb_sym, Hk'. reflexivity.
      * exact IH.
Qed.

Lemma ownGet_app_new acc key row k :
  ownGet acc key = None ->
  ownGet (acc ++ [(key, [row])]) k =
  if String.eqb key k then Some [row] else ownGet acc k.
Proof.
  induction acc as [|[k' rs] acc IH]; simpl; intros Hnone.
  - reflexivity.
  - destruct (String.eqb k' key) eqn:Hk'; [discriminate|].
    destruct (String.eqb k' k) eqn:Hk.
    + apply String.eqb_eq in Hk. subst k'.
      rewrite String.eqb_sym, Hk'. reflexivity.
    + apply IH, Hnone.
Qed.

Lemma keys_ownPush acc key row :
  List.map fst (ownPush acc key row) = List.map fst acc.
Proof.
  induction acc as [|[k rs] acc IH]; simpl; [reflexivity|].
  destruct (String.eqb k key); simpl; [reflexivity|]. now rewrite IH.
Qed.

Lemma sizes_ownPush acc key row rs :
  ownGet acc key = Some rs -> sizes (ownPush acc key row) = S (sizes acc).
Proof.
  unfold sizes. induction acc as [|[k rs'] acc IH]; simpl; [discriminate|].
  destruct (String.eqb k key); simpl; intros H.
  - rewrite length_app. simpl. lia.
  - rewrite (IH H). lia.
Qed.

Lemma sizes_app_new acc key row :
  sizes (acc ++ [(key, [row])]) = S (sizes acc).
Proof.
  unfold sizes. rewrite List.map_app, list_sum_app. simpl. lia.
Qed.

Lemma ownGet_keys acc key :
  existsb (String.eqb key) (List.map fst acc) = bool_decide (is_Some (ownGet acc key)).
Proof.
  induction acc as [|[k rs] acc IH]; simpl.
  - reflexivity.
  - rewrite (String.eqb_sym key k). destruct (String.eqb k key); simpl.
    + reflexivity.
    + exact IH.
Qed.

(** What one turn of the reduction does when it does not throw. *)
Lemma groupStep_normal acc row acc' :
  groupStep column acc row = Normal acc' ->
  sizes acc' = S (sizes acc) /\
  List.map fst acc' = setAdd (List.map fst acc) (groupKeyOf column row) /\
  (forall k, ownGet acc' k =
     if String.eqb (groupKeyOf column row) k
     then Some (default [] (ownGet acc k) ++ [row])
     else ownGet acc k) /\
  (is_Some (ownGet acc (groupKeyOf column row)) \/
   inherited (groupKeyOf column row) = false).
Proof.
  unfold groupStep, setAdd. intros H.
  set (key := groupKeyOf column row) in *.
  rewrite ownGet_keys.
  destruct (ownGet acc key) as [rs|] eqn:Hget.
  - injection H as <-. rewrite bool_decide_eq_true_2 by eauto.
    split; [eapply sizes_ownPush; eassumption|].
    split; [apply keys_ownPush|]. split; [|left; eauto].
    intros k. rewrite ownGet_ownPush.
    destruct (String.eqb key k) eqn:Hk; [|reflexivity].
    apply String.eqb_eq in Hk. subst k. rewrite Hget. reflexivity.
  - rewrite bool_decide_eq_false_2 by (intros [? ?]; discriminate).
    fold (inherited key) in H. destruct (inherited key) eqn:Hinh; [discriminate|].
    injection H as <-.
    split; [apply sizes_app_new|]. split; [now rewrite List.map_app|].
    split; [|right; reflexivity].
    intros k. rewrite ownGet_app_new by assumption.
    destruct (String.eqb key k) eqn:Hk; [|reflexivity].
    apply String.eqb_eq in Hk. subst k. rewrite Hget. reflexivity.
Qed.

(** One turn throws exactly when the key is new and inherited. *)
Lemma groupStep_throw acc row :
  (exists e, groupStep column acc row = Throw e) <->
  ownGet acc (groupKeyOf column row) = None /\ inherited (groupKeyOf column row) = true.
Proof.
  unfold groupStep, inherited.
  destruct (ownGet acc (groupKeyOf column row)); [split; [intros [? ?]|intros [? ?]]; discriminate|].
  destruct (truthy (objectPrototypeGet (groupKeyOf column row))); split.
  - auto.
  - eauto.
  - intros [? ?]; discriminate.
  - intros [? ?]; discriminate.
Qed.

Lemma rowsOf_app key rows1 rows2 :
  rowsOf column key (rows1 ++ rows2) = rowsOf column key rows1 ++ rowsOf column key rows2.
Proof. apply List.filter_app. Qed.

(** The invariant of the reduction: after the rows [seen], the
    accumulator holds, under each key, the rows seen with that key, in
    order; its keys are in first-seen order; no row is lost. *)
Lemma groupReduce_normal rows : forall seen acc g,
  (forall k, ownGet acc k = nonEmpty (rowsOf column k seen)) ->
  groupReduce column rows acc = Normal g ->
  (forall k, ownGet g k = nonEmpty (rowsOf column k (seen ++ rows))) /\
  List.map fst g =
    fold_left (fun keys row => setAdd keys (groupKeyOf column row)) rows (List.map fst acc) /\
  sizes g = sizes acc + length rows.
Proof.
  induction rows as [|row rows IH]; intros seen acc g Hacc Hrun; simpl in Hrun.
  - injection Hrun as <-. rewrite app_nil_r. simpl. auto with lia.
  - destruct (groupStep column acc row) as [acc'|e] eqn:Hstep; [|discriminate].
    apply groupStep_normal in Hstep.
    destruct Hstep as (Hsize & Hkeys & Hget & _).
    destruct (IH (seen ++ [row]) acc' g) as (IH1 & IH2 & IH3); [|assumption|].
    + intros k. rewrite Hget, rowsOf_app, Hacc. unfold rowsOf at 2. simpl.
      destruct (String.eqb (groupKeyOf column row) k).
      * destruct (rowsOf column k seen); reflexivity.
      * rewrite app_nil_r. reflexivity.
    + rewrite <- app_assoc in IH1. simpl in IH1.
      split; [exact IH1|]. split; [simpl; rewrite <- Hkeys; exact IH2|].
      simpl. lia.
Qed.

(** The reduction returns when no row has an inherited key. *)
Lemma groupReduce_returns rows : forall acc,
  Forall (fun row => inherited (groupKeyOf column row) = false) rows ->
  exists g, groupReduce column rows acc = Normal g.
Proof.
  induction rows as [|row rows IH]; intros acc Hall; simpl; [eauto|].
  inversion Hall as [|? ? Hrow Hrest]; subst.
  destruct (groupStep column acc row) as [acc'|e] eqn:Hstep; [eauto|].
  assert (exists e, groupStep column acc row = Throw e) as Hthrow by eauto.
  apply groupStep_throw in Hthrow. destruct Hthrow as [_ Hinh]. congruence.
Qed.

End Grouping.

Lemma setAdd_NoDup keys key : NoDup keys -> NoDup (setAdd keys key).
Proof.
  intros Hnd. unfold setAdd. destruct (existsb (String.eqb key) keys) eqn:Hex; [assumption|].
  apply NoDup_app. split; [assumption|]. split; [|apply NoDup_singleton].
  intros k Hin Hin'. apply list_elem_of_singleton in Hin'. subst k.
  assert (existsb (String.eqb key) keys = true) as Habs; [|congruence].
  apply existsb_exists. exists key. split; [|apply String.eqb_refl].
  apply list_elem_of_In, Hin.
Qed.

Lemma fold_setAdd_NoDup {A : Type} (f : A -> string) (l : list A) : forall keys,
  NoDup keys -> NoDup (fold_left (fun keys x => setAdd keys (f x)) l keys).
Proof.
  induction l as [|x l IH]; intros keys Hnd; simpl; [assumption|].
  apply IH, setAdd_NoDup, Hnd.
Qed.

Lemma ownGet_In (g : Groups) k rs :
  NoDup (List.map fst g) -> In (k, rs) g -> ownGet g k = Some rs.
Proof.
  induction g as [|[k' rs'] g IH]; simpl; intros Hnd Hin; [contradiction|].
  apply NoDup_cons in Hnd. destruct Hnd as [Hnotin Hnd].
  destruct Hin as [Heq|Hin].
  - injection Heq as -> ->. rewrite String.eqb_refl. reflexivity.
  - destruct (String.eqb k' k) eqn:Hk; [|auto].
    apply String.eqb_eq in Hk. subst k'. exfalso. apply Hnotin.
    apply list_elem_of_In. apply (in_map fst) in Hin. exact Hin.
Qed.

(** With a grouping column and when it returns, [groupRows] partitions
    the rows: the sizes add up, the keys are distinct and listed in the
    order in which they were first seen (the order of the front end's
    [groupKeys]), and each group is the list of the rows that have its
    key, in their original order. *)
Lemma groupRows_with_column rows column g :
  column <> "" ->
  groupRows rows (Some column) = Normal g ->
  sizes g = length rows /\
  List.map fst g = groupKeys rows (Some column) /\
  NoDup (List.map fst g) /\
  (forall k rs, In (k, rs) g -> rs <> [] /\ rs = rowsOf column k rows).
Proof.
  intros Hcol Hrun. unfold groupRows, groupKeys in *.
  apply isEmpty_false in Hcol. rewrite Hcol in *.
  destruct (groupReduce_normal column rows [] [] g) as (Hget & Hkeys & Hsize);
    [reflexivity|assumption|].
  simpl in Hget, Hkeys, Hsize.
  assert (NoDup (List.map fst g)) as Hnd.
  { rewrite Hkeys. apply fold_setAdd_NoDup, NoDup_nil_2. }
  repeat split; try assumption.
  - intros ->. apply (ownGet_In _ _ _ Hnd) in H. rewrite Hget in H.
    destruct (rowsOf column k rows); discriminate.
  - apply (ownGet_In _ _ _ Hnd) in H. rewrite Hget in H. unfold nonEmpty in H.
    destruct (rowsOf column k rows); [discriminate|]. congruence.
Qed.

(** It returns exactly when no row has a key that [Object.prototype]
    also has. *)
Lemma groupRows_returns rows column :
  Forall (fun row => inherited (groupKeyOf column row) = false) rows ->
  exists g, groupRows rows (Some column) = Normal g.
Proof.
  intros Hall. unfold groupRows. destruct (JsString.isEmpty column); [eauto|].
  apply groupReduce_returns, Hall.
Qed.

(** Without a grouping column there is one group, under the key
    [all], holding all the rows in their order; enumerating it gives
    that one group. *)
Lemma groupRows_no_column rows col :
  col = None \/ col = Some "" ->
  groupRows rows col = Normal [(SINGLE_KEY, rows)] /\
  entries [(SINGLE_KEY, rows)] = [(SINGLE_KEY, rows)].
Proof. intros [-> | ->]; split; reflexivity. Qed.

(** *** Enumeration *)

Lemma insertIndexed_Permutation {A : Type} i (e : string * A) sorted :
  insertIndexed i e sorted ≡ₚ (i, e) :: sorted.
Proof.
  induction sorted as [|[j e'] sorted IH]; simpl; [reflexivity|].
  destruct (i <? j)%N; [reflexivity|]. rewrite IH. apply Permutation_swap.
Qed.

Lemma indexedEntries_Permutation {A : Type} (o : list (string * A)) :
  List.map snd (indexedEntries o) ≡ₚ
  List.filter (fun e => bool_decide (is_Some (arrayIndex (fst e)))) o.
Proof.
  induction o as [|[k v] o IH]; simpl; [reflexivity|].
  destruct (arrayIndex k) as [i|]; simpl.
  - rewrite insertIndexed_Permutation. simpl. now rewrite IH.
  - exact IH.
Qed.

Lemma filter_split_Permutation {A : Type} (p : A -> bool) (l : list A) :
  List.filter p l ++ List.filter (fun x => negb (p x)) l ≡ₚ l.
Proof.
  induction l as [|x l IH]; simpl; [reflexivity|].
  destruct (p x); simpl.
  - now rewrite IH.
  - rewrite <- Permutation_middle. now rewrite IH.
Qed.

(** [Object.entries] visits every own property once. *)
Lemma entries_Permutation {A : Type} (o : list (string * A)) : entries o ≡ₚ o.
Proof.
  unfold entries, namedEntries. rewrite indexedEntries_Permutation.
  apply filter_split_Permutation.
Qed.

(** When no key is an array index, the enumeration is in insertion
    order. *)
Lemma entries_named {A : Type} (o : list (string * A)) :
  Forall (fun e => arrayIndex (fst e) = None) o -> entries o = o.
Proof.
  intros Hall. unfold entries, namedEntries.
  assert (indexedEntries o = []) as ->.
  { induction Hall as [|[k v] o Hk _ IH]; simpl in *; [reflexivity|]. now rewrite Hk. }
  simpl. induction Hall as [|[k v] o Hk _ IH]; simpl in *; [reflexivity|].
  rewrite Hk. simpl. now rewrite IH.
Qed.

(** The keys of the groups are never names that [Object.prototype] has:
    reading the account mapping at a group key sees own entries only. *)
Lemma groupReduce_keys_not_inherited column rows : forall acc g,
  Forall (fun k => inherited k = false) (List.map fst acc) ->
  groupReduce column rows acc = Normal g ->
  Forall (fun k => inherited k = false) (List.map fst g).
Proof.
  induction rows as [|row rows IH]; intros acc g Hacc Hrun; simpl in Hrun.
  - injection Hrun as <-. exact Hacc.
  - destruct (groupStep column acc row) as [acc'|e] eqn:Hstep; [|discriminate].
    apply groupStep_normal in Hstep. destruct Hstep as (_ & Hkeys & _ & Hnew).
    apply (IH acc' g); [|assumption]. rewrite Hkeys. unfold setAdd.
    rewrite ownGet_keys. destruct Hnew as [Hsome|Hinh].
    + rewrite bool_decide_eq_true_2 by assumption. exact Hacc.
    + destruct (bool_decide _); [exact Hacc|].
      apply Forall_app. split; [exact Hacc|]. now constructor.
Qed.

Lemma groupRows_keys_not_inherited rows col g :
  groupRows rows col = Normal g ->
  Forall (fun k => inherited k = false) (List.map fst g).
Proof.
  assert (Forall (fun k => inherited k = false) [SINGLE_KEY]) as Hall
    by (constructor; [reflexivity|constructor]).
  unfold groupRows. destruct col as [column|].
  - destruct (JsString.isEmpty column).
    + intros H; injection H as <-. exact Hall.
    + apply groupReduce_keys_not_inherited. constructor.
  - intros H; injection H as <-. exact Hall.
Qed.

(** C7: a row whose grouping value is [constructor] is put in no
    group: [acc["constructor"]] is the inherited function, so no list is
    created and the [push] throws a [TypeError].  The specification asks
    for a partition of every list of rows.  (Where [groupRows] returns it does
    partition: [groupRows_with_column], [groupRows_no_column]; the front
    end's [groupKeys] accepts the same rows.) *)
Theorem groupRows_throws_on_inherited_key :
  groupRows constructorRows (Some "Naam")
  = Throw (TypeError "acc[groupKey].push is not a function") /\
  groupKeys constructorRows (Some "Naam") = ["constructor"].
Proof. split; reflexivity. Qed.

(** Where no key is an array index, the handler does visit the groups
    in first-seen order. *)
Lemma entries_first_seen rows column g :
  column <> "" ->
  groupRows rows (Some column) = Normal g ->
  Forall (fun k => arrayIndex k = None) (List.map fst g) ->
  List.map fst (entries g) = groupKeys rows (Some column).
Proof.
  intros Hcol Hrun Hnamed. rewrite entries_named.
  - now apply groupRows_with_column.
  - apply Forall_map in Hnamed. exact Hnamed.
Qed.

(** C8: the rows of 2024 come first and those of 2023 second, but the
    handler's [Object.entries] lists the group [2023] before the group
    [2024]: keys that are array indices are enumerated in ascending
    numeric order, whatever the order of insertion.  The front end's
    [groupKeys] lists the same groups in first-seen order. *)
Theorem entries_not_in_first_seen_order :
  exists g,
    groupRows yearRows (Some "Jaar") = Normal g /\
    List.map fst g = ["2024"; "2023"] /\
    List.map fst (entries g) = ["2023"; "2024"] /\
    groupKeys yearRows (Some "Jaar") = ["2024"; "2023"].
Proof. eexists. repeat split; reflexivity. Qed.


(** ... and the two rows end up in one group. *)
Example sentinel_groups_merge :
  let empty : Row := {[ "Rekening" := "" ]} in
  let leeg : Row := {[ "Rekening" := "(leeg)" ]} in
  groupRows [empty; leeg] (Some "Rekening") = Normal [(EMPTY_KEY, [empty; leeg])].
Proof. reflexivity. Qed.

(** The key of a row whose trimmed grouping value is not empty is that
    value; the sentinels are the two fixed, different strings ["(leeg)"]
    and ["all"], and the key is a sentinel exactly when the value is that
    very string. *)
Theorem group_key_of_nonempty_value (column : string) (row : Row) :
  normalizeCellValue (jsGet row column) <> "" ->
  groupKeyOf column row = normalizeCellValue (jsGet row column) /\
  (groupKeyOf column row = EMPTY_KEY <-> normalizeCellValue (jsGet row column) = "(leeg)") /\
  (groupKeyOf column row = SINGLE_KEY <-> normalizeCellValue (jsGet row column) = "all") /\
  EMPTY_KEY <> SINGLE_KEY.
Proof.
  intros Hne. unfold groupKeyOf. apply isEmpty_false in Hne. rewrite Hne.
  repeat split; try (intros <-; reflexivity); try (intros ->; reflexivity).
  discriminate.
Qed.

Lemma group_key_of_nonempty_value_witness :
  normalizeCellValue (jsGet spacedRow "Rekening") <> "" /\
  groupKeyOf "Rekening" spacedRow = "Betaalrekening" /\
  groupKeyOf "Rekening" spacedRow <> EMPTY_KEY.
Proof.
  assert (normalizeCellValue (jsGet spacedRow "Rekening") <> "") as Hne
    by (vm_compute; discriminate).
  destruct (group_key_of_nonempty_value "Rekening" spacedRow Hne) as (Hkey & Hempty & _).
  split; [exact Hne|]. split.
  - rewrite Hkey. vm_compute. reflexivity.
  - intros Habs. apply Hempty in Habs. vm_compute in Habs. discriminate.
Defined.

Lemma ownGet_Some_In (g : Groups) k rs : ownGet g k = Some rs -> In (k, rs) g.
Proof.
  induction g as [|[k' rs'] g IH]; simpl; [discriminate|].
  destruct (String.eqb_spec k' k) as [->|_].
  - intros H; injection H as ->. now left.
  - intros H. right. now apply IH.
Qed.

Lemma rowsOf_In column row rows :
  In row rows -> In row (rowsOf column (groupKeyOf column row) rows).
Proof.
  intros Hin. unfold rowsOf. apply filter_In. split; [exact Hin|apply String.eqb_refl].
Qed.




(** ** The import loop *)

Lemma resolveAccount_unmapped accountMapping group :
  inherited group = false ->
  accountEntry accountMapping group = None \/ accountEntry accountMapping group = Some "" ->
  resolveAccount accountMapping group = JsNull.
Proof.
  unfold inherited, accountEntry, resolveAccount, jsGet. intros Hinh Hentry.
  destruct accountMapping as [m|]; simpl in *; [|reflexivity].
  destruct (m !! group) as [s|]; simpl.
  - destruct Hentry as [Habs|Heq]; [discriminate|]. injection Heq as ->. reflexivity.
  - rewrite Hinh. reflexivity.
Qed.

Lemma resolveAccount_mapped accountMapping group account :
  accountEntry accountMapping group = Some account -> account <> "" ->
  resolveAccount accountMapping group = JsStr account.
Proof.
  unfold accountEntry, resolveAccount, jsGet. intros Hentry Hne.
  destruct accountMapping as [m|]; simpl in *; [|discriminate].
  rewrite Hentry. simpl. apply isEmpty_false in Hne. rewrite Hne. reflexivity.
Qed.

Section ImportLoop.

Variable env : Env.
Variable fetch : Ledger.
Variable req : Request.
Variable m : Mapping.

(** When the loop takes the [continue] it makes no call and replies
    with the summary of all the groups. *)
Lemma importLoop_dry todo : forall result calls,
  dryRunFlag req || mockActual env = true ->
  importLoop env fetch req m todo result calls =
  (Replied (Status200 (importResult (dryRunFlag req) (result ++ List.map (resultOf req m) todo))), calls).
Proof.
  induction todo as [|[g rs] todo IH]; intros result calls Hdry; simpl.
  - now rewrite app_nil_r.
  - rewrite Hdry, IH by assumption. unfold resultOf at 2. simpl.
    now rewrite <- app_assoc.
Qed.

(** The calls already made stay at the front of the trace. *)
Lemma importLoop_extends todo : forall result calls,
  exists more, snd (importLoop env fetch req m todo result calls) = calls ++ more.
Proof.
  induction todo as [|[g rs] todo IH]; intros result calls; simpl.
  - exists []. now rewrite app_nil_r.
  - destruct (dryRunFlag req || mockActual env); [apply IH|].
    destruct (JsString.isEmpty _); [exists []; now rewrite app_nil_r|].
    destruct (negb _); [exists []; now rewrite app_nil_r|].
    destruct (fetch calls _); simpl; eauto.
    destruct (IH (result ++ [groupResult req m g rs])
                 (calls ++ [importCall env req m g rs])) as [more Hmore].
    rewrite Hmore, <- app_assoc. eauto.
Qed.

(** One turn of the loop in live mode. *)
Lemma importLoop_live g rs rest result calls :
  liveMode env req = true ->
  importLoop env fetch req m ((g, rs) :: rest) result calls =
  if JsString.isEmpty (effectiveServerUrl env req) then
    (Replied (Status400 "ACTUAL_SERVER_URL ontbreekt voor import."), calls)
  else if negb (truthy (resolveAccount (accountMapping req) g)) then
    (Replied (Status400 (missingAccount g)), calls)
  else
    match fetch calls (callOf env req m (g, rs)) with
    | ResponseOk =>
        importLoop env fetch req m rest (result ++ [resultOf req m (g, rs)])
                   (calls ++ [callOf env req m (g, rs)])
    | response => (failure g response, calls ++ [callOf env req m (g, rs)])
    end.
Proof.
  unfold liveMode. intros Hlive. apply negb_true_iff in Hlive.
  cbn [importLoop]. rewrite Hlive. unfold callOf, resultOf. cbn [fst snd].
  destruct (JsString.isEmpty _); [reflexivity|].
  destruct (negb _); [reflexivity|].
  destruct (fetch calls _); reflexivity.
Qed.

(** Groups that pass are walked through: each adds its result and its
    call. *)
Lemma importLoop_passes done : forall todo result calls,
  liveMode env req = true ->
  effectiveServerUrl env req <> "" ->
  passes env fetch req m calls done ->
  importLoop env fetch req m (done ++ todo) result calls =
  importLoop env fetch req m todo
    (result ++ List.map (resultOf req m) done) (calls ++ List.map (callOf env req m) done).
Proof.
  induction done as [|[g rs] done IH]; intros todo result calls Hlive Hurl Hpass.
  - simpl. now rewrite !app_nil_r.
  - destruct (Hpass 0%nat (g, rs) eq_refl) as [Hacc Hok]. simpl in Hacc, Hok.
    rewrite app_nil_r in Hok.
    rewrite <- app_comm_cons, importLoop_live by assumption.
    apply isEmpty_false in Hurl. rewrite Hurl, Hacc, Hok. cbn [negb].
    rewrite IH; [|assumption|now apply isEmpty_false|].
    + cbn [List.map]. now rewrite <- !app_assoc.
    + intros j e He. destruct (Hpass (S j) e He) as [Hacc' Hok'].
      split; [assumption|]. cbn [take List.map] in Hok'.
      now rewrite <- app_assoc.
Qed.

(** When every group passes, the handler replies with the summary and
    has made one call per group. *)
Lemma importLoop_all_pass todo result calls :
  liveMode env req = true ->
  effectiveServerUrl env req <> "" ->
  passes env fetch req m calls todo ->
  importLoop env fetch req m todo result calls =
  (Replied (Status200
     (importResult (dryRunFlag req) (result ++ List.map (resultOf req m) todo))),
   calls ++ List.map (callOf env req m) todo).
Proof.
  intros Hlive Hurl Hpass.
  rewrite <- (app_nil_r todo) at 1. now rewrite importLoop_passes.
Qed.

(** A call that is not answered with [ok] is the last one, it belongs
    to the group at its position, and it decides the outcome. *)
Lemma importLoop_failed todo : forall result calls out calls' i call,
  importLoop env fetch req m todo result calls = (out, calls') ->
  calls' !! (length calls + i)%nat = Some call ->
  fetch (take (length calls + i) calls') call <> ResponseOk ->
  exists g rs,
    todo !! i = Some (g, rs) /\
    calls' = calls ++ List.map (callOf env req m) (take (S i) todo) /\
    out = failure g (fetch (take (length calls + i) calls') call).
Proof.
  destruct (dryRunFlag req || mockActual env) eqn:Hmode.
  { intros result calls out calls' i call Hrun Hcall _.
    rewrite importLoop_dry in Hrun by assumption. injection Hrun as _ <-.
    rewrite lookup_ge_None_2 in Hcall by lia. discriminate. }
  assert (liveMode env req = true) as Hlive by (unfold liveMode; now rewrite Hmode).
  induction todo as [|[g rs] todo IH]; intros result calls out calls' i call Hrun Hcall Hfail.
  - simpl in Hrun. injection Hrun as _ <-.
    rewrite lookup_ge_None_2 in Hcall by lia. discriminate.
  - rewrite importLoop_live in Hrun by assumption.
    destruct (JsString.isEmpty _).
    { injection Hrun as _ <-. rewrite lookup_ge_None_2 in Hcall by lia. discriminate. }
    destruct (negb _).
    { injection Hrun as _ <-. rewrite lookup_ge_None_2 in Hcall by lia. discriminate. }
    destruct (fetch calls (callOf env req m (g, rs))) as [|detail|] eqn:Hresp.
    + destruct (importLoop_extends todo (result ++ [resultOf req m (g, rs)])
                  (calls ++ [callOf env req m (g, rs)])) as [more Hmore].
      rewrite Hrun in Hmore. simpl in Hmore. destruct i as [|i].
      * exfalso. apply Hfail. rewrite Nat.add_0_r in *. subst calls'.
        rewrite <- app_assoc in *. rewrite take_app_length.
        rewrite lookup_app_r, Nat.sub_diag in Hcall by lia.
        injection Hcall as <-. exact Hresp.
      * replace (length calls + S i)%nat
          with (length (calls ++ [callOf env req m (g, rs)]) + i)%nat in *
          by (rewrite length_app; simpl; lia).
        destruct (IH _ _ _ _ _ _ Hrun Hcall Hfail) as (g' & rs' & Hat & Hcalls & Hout).
        exists g', rs'. split; [exact Hat|]. split; [|exact Hout].
        rewrite Hcalls, <- app_assoc. reflexivity.
    + injection Hrun as <- <-. destruct i as [|i].
      * rewrite Nat.add_0_r in *. rewrite take_app_length.
        rewrite lookup_app_r, Nat.sub_diag in Hcall by lia.
        injection Hcall as <-. rewrite Hresp. exists g, rs.
        repeat split.
      * rewrite lookup_ge_None_2 in Hcall by (rewrite length_app; simpl; lia).
        discriminate.
    + injection Hrun as <- <-. destruct i as [|i].
      * rewrite Nat.add_0_r in *. rewrite take_app_length.
        rewrite lookup_app_r, Nat.sub_diag in Hcall by lia.
        injection Hcall as <-. rewrite Hresp. exists g, rs.
        repeat split.
      * rewrite lookup_ge_None_2 in Hcall by (rewrite length_app; simpl; lia).
        discriminate.
Qed.

End ImportLoop.

(** ** The handler *)

Lemma isValid_spec t :
  isValid t = true <-> is_Some (amount t) /\ truthy (date t) = true.
Proof.
  unfold isValid. rewrite andb_true_iff, bool_decide_eq_true. reflexivity.
Qed.

Lemma isInvalid_isValid t : isInvalid t = negb (isValid t).
Proof. unfold isInvalid, isValid. now rewrite negb_andb. Qed.

(** The handler, once the request has rows and a mapping and the
    grouping has returned. *)
Lemma importHandler_grouped env fetch req rows0 m grouped :
  rows req = Some rows0 -> mapping req = Some m ->
  groupRows rows0 (groupByColumn req) = Normal grouped ->
  importHandler env fetch req = importLoop env fetch req m (entries grouped) [] [].
Proof. unfold importHandler. intros -> -> ->. reflexivity. Qed.

(** In dry-run mode the handler makes no call, whatever the request. *)
Lemma importHandler_dry_calls env fetch req :
  dryRunFlag req || mockActual env = true ->
  snd (importHandler env fetch req) = [].
Proof.
  intros Hdry. unfold importHandler.
  destruct (rows req) as [rows0|]; [|reflexivity].
  destruct (mapping req) as [m|]; [|reflexivity].
  destruct (groupRows rows0 (groupByColumn req)) as [grouped|e]; [|reflexivity].
  now rewrite importLoop_dry.
Qed.

(** Without a call there is no ledger failure to report. *)
Lemma importHandler_failure_needs_call env fetch req :
  snd (importHandler env fetch req) = [] ->
  (forall error details,
     fst (importHandler env fetch req) <> Replied (Status502 error details)) /\
  fst (importHandler env fetch req) <> Uncaught FetchError.
Proof.
  unfold importHandler.
  destruct (rows req) as [rows0|]; [|split; [intros ? ?|]; discriminate].
  destruct (mapping req) as [m|]; [|split; [intros ? ?|]; discriminate].
  destruct (groupRows rows0 (groupByColumn req)) as [grouped|e] eqn:Hgrouped.
  - generalize (@nil GroupResult). generalize (entries grouped) as todo.
    assert (forall todo result calls,
      snd (importLoop env fetch req m todo result calls) = calls ->
      (forall error details,
         fst (importLoop env fetch req m todo result calls)
         <> Replied (Status502 error details)) /\
      fst (importLoop env fetch req m todo result calls) <> Uncaught FetchError) as Hloop.
    { induction todo as [|[g rs] todo IH]; intros result calls; simpl.
      - split; [intros ? ?|]; discriminate.
      - destruct (dryRunFlag req || mockActual env); [apply IH|].
        destruct (JsString.isEmpty _); [split; [intros ? ?|]; discriminate|].
        destruct (negb _); [split; [intros ? ?|]; discriminate|].
        destruct (fetch calls _).
        + intros Hsnd.
          destruct (importLoop_extends env fetch req m todo
                      (result ++ [groupResult req m g rs])
                      (calls ++ [importCall env req m g rs])) as [more Hmore].
          rewrite Hsnd in Hmore. apply (f_equal length) in Hmore.
          rewrite !length_app in Hmore. simpl in Hmore. lia.
        + simpl. intros Hsnd. apply (f_equal length) in Hsnd.
          rewrite length_app in Hsnd. simpl in Hsnd. lia.
        + simpl. intros Hsnd. apply (f_equal length) in Hsnd.
          rewrite length_app in Hsnd. simpl in Hsnd. lia. }
    intros todo result. apply Hloop.
  - intros _. simpl. split; [intros ? ?; discriminate|].
    unfold groupRows in Hgrouped. intros Heq. injection Heq as ->.
    destruct (groupByColumn req) as [column|]; [|discriminate].
    destruct (JsString.isEmpty column); [discriminate|].
    revert Hgrouped. generalize (@nil (string * list Row)).
    induction rows0 as [|row rows0 IH]; intros acc; simpl; [discriminate|].
    unfold groupStep.
    destruct (ownGet acc (groupKeyOf column row)); [apply IH|].
    destruct (truthy _); [discriminate|apply IH].
Qed.

(** The sample rows fall into three groups, enumerated as inserted. *)
Example threeGroups_grouped :
  groupRows threeGroupRows (Some "Rekening") = Normal threeGroups /\
  entries threeGroups = threeGroups.
Proof. split; vm_compute; reflexivity. Qed.

(** C1: a request in dry-run mode (the flag is [true], or absent and so
    [true] by default) makes no call of the transaction import, whatever
    its rows, mapping, grouping column and account mapping, and its
    outcome is neither the 502 of a refused import nor a failed
    [fetch]. *)
Theorem dry_run_never_calls_ledger env fetch req :
  dryRunFlag req = true ->
  snd (importHandler env fetch req) = [] /\
  (forall error details,
     fst (importHandler env fetch req) <> Replied (Status502 error details)) /\
  fst (importHandler env fetch req) <> Uncaught FetchError.
Proof.
  intros Hdry.
  assert (snd (importHandler env fetch req) = []) as Hcalls
    by (apply importHandler_dry_calls; now rewrite Hdry).
  split; [exact Hcalls|]. now apply importHandler_failure_needs_call.
Qed.

Lemma dry_run_never_calls_ledger_witness :
  dryRunFlag (groupedRequest (Some true) ∅) = true /\
  snd (importHandler liveEnv refuseSecond (groupedRequest (Some true) ∅)) = [].
Proof.
  split; [reflexivity|].
  apply (dry_run_never_calls_ledger liveEnv refuseSecond (groupedRequest (Some true) ∅)).
  reflexivity.
Defined.

(** C10: when the request has no [dryRun] member the handler makes no
    call, every summary it returns says [dryRun: true], and it does
    return one whenever rows and mapping are there and the grouping
    returns. *)
Theorem absent_dryRun_is_dry_run env fetch req :
  dryRun req = None ->
  snd (importHandler env fetch req) = [] /\
  (forall result,
     fst (importHandler env fetch req) = Replied (Status200 result) ->
     resultDryRun result = true) /\
  (forall rows0 m grouped,
     rows req = Some rows0 -> mapping req = Some m ->
     groupRows rows0 (groupByColumn req) = Normal grouped ->
     exists result,
       fst (importHandler env fetch req) = Replied (Status200 result) /\
       resultDryRun result = true).
Proof.
  intros Habsent.
  assert (dryRunFlag req = true) as Hflag by (unfold dryRunFlag; now rewrite Habsent).
  assert (dryRunFlag req || mockActual env = true) as Hdry by now rewrite Hflag.
  split; [now apply importHandler_dry_calls|]. split.
  - unfold importHandler.
    destruct (rows req) as [rows0|]; [|discriminate].
    destruct (mapping req) as [m|]; [|discriminate].
    destruct (groupRows rows0 (groupByColumn req)) as [grouped|e]; [|discriminate].
    rewrite importLoop_dry by assumption. simpl. intros result Heq.
    injection Heq as <-. exact Hflag.
  - intros rows0 m grouped Hrows Hm Hgrouped.
    rewrite (importHandler_grouped _ _ _ _ _ _ Hrows Hm Hgrouped).
    rewrite importLoop_dry by assumption. simpl. eexists. split; [reflexivity|].
    exact Hflag.
Qed.

Lemma absent_dryRun_is_dry_run_witness :
  dryRun (groupedRequest None allAccounts) = None /\
  snd (importHandler liveEnv alwaysOk (groupedRequest None allAccounts)) = [] /\
  exists result,
    fst (importHandler liveEnv alwaysOk (groupedRequest None allAccounts))
    = Replied (Status200 result) /\
    resultDryRun result = true.
Proof.
  split; [reflexivity|].
  destruct (absent_dryRun_is_dry_run liveEnv alwaysOk (groupedRequest None allAccounts))
    as (Hcalls & _ & Hreply); [reflexivity|].
  split; [exact Hcalls|].
  apply (Hreply threeGroupRows accountRules threeGroups); vm_compute; reflexivity.
Defined.

(** A call of the transaction import that is not answered with [ok] is
    the call of the group at its position, and no call follows it: the
    trace holds the calls of the groups up to that one and nothing else.
    The handler then ends with the 502 payload of the group's name and
    the ledger's text when the ledger refused, and with the exception of
    [fetch], uncaught, when [fetch] itself failed; it never returns the
    summary. *)
Theorem failed_call_aborts env fetch req rows0 m grouped i call :
  rows req = Some rows0 -> mapping req = Some m ->
  groupRows rows0 (groupByColumn req) = Normal grouped ->
  snd (importHandler env fetch req) !! i = Some call ->
  fetch (take i (snd (importHandler env fetch req))) call <> ResponseOk ->
  exists g rs,
    entries grouped !! i = Some (g, rs) /\
    snd (importHandler env fetch req) =
      List.map (callOf env req m) (take (S i) (entries grouped)) /\
    fst (importHandler env fetch req) =
      failure g (fetch (take i (snd (importHandler env fetch req))) call) /\
    (forall result, fst (importHandler env fetch req) <> Replied (Status200 result)).
Proof.
  intros Hrows Hm Hgrouped Hcall Hfail.
  rewrite (importHandler_grouped _ _ _ _ _ _ Hrows Hm Hgrouped) in *.
  destruct (importLoop env fetch req m (entries grouped) [] []) as [out calls] eqn:Hrun.
  simpl in *.
  destruct (importLoop_failed env fetch req m _ _ _ _ _ i call Hrun Hcall Hfail)
    as (g & rs & Hat & Hcalls & Hout).
  exists g, rs. simpl in Hcalls, Hout. repeat split; try assumption.
  intros result. rewrite Hout.
  destruct (fetch (take i calls) call); [contradiction| |]; discriminate.
Qed.

Lemma failed_call_aborts_witness :
  exists g rs,
    entries threeGroups !! 1%nat = Some (g, rs) /\
    snd (importHandler liveEnv refuseSecond (groupedRequest (Some false) allAccounts)) =
      List.map (callOf liveEnv (groupedRequest (Some false) allAccounts) accountRules)
               (take 2 (entries threeGroups)) /\
    fst (importHandler liveEnv refuseSecond (groupedRequest (Some false) allAccounts)) =
      failure g
        (refuseSecond
           (take 1 (snd (importHandler liveEnv refuseSecond
                           (groupedRequest (Some false) allAccounts))))
           (callOf liveEnv (groupedRequest (Some false) allAccounts) accountRules
              ("Spaar", [accountRow "Spaar" "02-01-2024" "1.000,00"]))) /\
    (forall result,
       fst (importHandler liveEnv refuseSecond (groupedRequest (Some false) allAccounts))
       <> Replied (Status200 result)).
Proof.
  apply (failed_call_aborts liveEnv refuseSecond
           (groupedRequest (Some false) allAccounts)
           threeGroupRows accountRules threeGroups 1
           (callOf liveEnv (groupedRequest (Some false) allAccounts) accountRules
              ("Spaar", [accountRow "Spaar" "02-01-2024" "1.000,00"]))).
  - reflexivity.
  - reflexivity.
  - vm_compute. reflexivity.
  - vm_compute. reflexivity.
  - vm_compute. discriminate.
Defined.

(** Three groups, the second refused by the ledger: the call for the
    first group was made and answered, the third was never made, and the
    reply is the 502 alone. *)
Example three_groups_second_fails :
  importHandler liveEnv refuseSecond (groupedRequest (Some false) allAccounts) =
  (Replied (Status502 "Import naar Actual mislukt voor groep 'Spaar'." "account closed"),
   List.map (callOf liveEnv (groupedRequest (Some false) allAccounts) accountRules)
            (take 2 threeGroups)).
Proof. vm_compute. reflexivity. Qed.

(** C3: the spec's scenario with a ledger that cannot be reached for the
    second of three groups.  The call for the first group was made and
    answered, the call for the second was made and [fetch] rejected, the
    third was never made; the handler ends with the exception of
    [fetch], uncaught: the client receives no reply, neither a failure
    payload nor a summary. *)
Theorem rejected_fetch_leaves_no_reply :
  importHandler liveEnv rejectSecond (groupedRequest (Some false) allAccounts) =
  (Uncaught FetchError,
   List.map (callOf liveEnv (groupedRequest (Some false) allAccounts) accountRules)
            (take 2 threeGroups)) /\
  (forall reply,
     fst (importHandler liveEnv rejectSecond (groupedRequest (Some false) allAccounts))
     <> Replied reply).
Proof.
  assert (importHandler liveEnv rejectSecond (groupedRequest (Some false) allAccounts) =
          (Uncaught FetchError,
           List.map (callOf liveEnv (groupedRequest (Some false) allAccounts) accountRules)
                    (take 2 threeGroups))) as Hrun
    by (vm_compute; reflexivity).
  split; [exact Hrun|]. intros reply. rewrite Hrun. discriminate.
Qed.

Section LiveGroup.

Variable env : Env.
Variable fetch : Ledger.
Variable req : Request.
Variables (rows0 : list Row) (m : Mapping) (grouped : Groups).
Variables (i : nat) (g : string) (rs : list Row).

Hypothesis Hrows : rows req = Some rows0.
Hypothesis Hmapping : mapping req = Some m.
Hypothesis Hgrouped : groupRows rows0 (groupByColumn req) = Normal grouped.
Hypothesis Hlive : liveMode env req = true.
Hypothesis Hurl : effectiveServerUrl env req <> "".
Hypothesis Hgroup : entries grouped !! i = Some (g, rs).
Hypothesis Hreached : passes env fetch req m [] (take i (entries grouped)).

(** The handler, brought to the group at position [i]. *)
Lemma importHandler_reaches :
  importHandler env fetch req =
  importLoop env fetch req m ((g, rs) :: drop (S i) (entries grouped))
    (List.map (resultOf req m) (take i (entries grouped)))
    (List.map (callOf env req m) (take i (entries grouped))).
Proof.
  rewrite (importHandler_grouped _ _ _ _ _ _ Hrows Hmapping Hgrouped).
  rewrite <- (take_drop_middle _ _ _ Hgroup) at 1.
  now rewrite importLoop_passes.
Qed.

Lemma reached_length :
  length (List.map (callOf env req m) (take i (entries grouped))) = i.
Proof.
  rewrite length_map, length_take. apply lookup_lt_Some in Hgroup. lia.
Qed.

Lemma group_not_inherited : inherited g = false.
Proof.
  pose proof (groupRows_keys_not_inherited _ _ _ Hgrouped) as Hkeys.
  rewrite Forall_forall in Hkeys. apply Hkeys.
  pose proof (list_elem_of_lookup_2 _ _ _ Hgroup) as Hin.
  rewrite entries_Permutation in Hin.
  apply (list_elem_of_fmap_2 fst) in Hin. exact Hin.
Qed.

(** The group's call is made, with its account and its valid
    transactions. *)
Lemma live_group_called account :
  accountEntry (accountMapping req) g = Some account -> account <> "" ->
  snd (importHandler env fetch req) !! i = Some (callOf env req m (g, rs)) /\
  bodyAccountId (callOf env req m (g, rs)) = JsStr account /\
  transactions (callOf env req m (g, rs)) = List.filter isValid (normalized m rs).
Proof.
  intros Hentry Hne.
  pose proof (resolveAccount_mapped _ _ _ Hentry Hne) as Hresolved.
  split; [|split; [exact Hresolved|reflexivity]].
  rewrite importHandler_reaches, importLoop_live by assumption.
  apply isEmpty_false in Hurl. rewrite Hurl, Hresolved. simpl truthy.
  apply isEmpty_false in Hne. rewrite Hne. cbn [negb].
  set (calls := List.map (callOf env req m) (take i (entries grouped))).
  assert (forall more, (calls ++ callOf env req m (g, rs) :: more) !! i
                       = Some (callOf env req m (g, rs))) as Hat.
  { intros more. rewrite lookup_app_r by (unfold calls; rewrite reached_length; lia).
    unfold calls. rewrite reached_length, Nat.sub_diag. reflexivity. }
  destruct (fetch calls (callOf env req m (g, rs))).
  - match goal with |- snd (importLoop _ _ _ _ ?todo ?result ?cs) !! _ = _ =>
      destruct (importLoop_extends env fetch req m todo result cs) as [more ->] end.
    rewrite <- app_assoc. apply Hat.
  - apply Hat.
  - apply Hat.
Qed.

(** A group without account ends the request before any call for it. *)
Lemma live_group_unmapped :
  accountEntry (accountMapping req) g = None \/
  accountEntry (accountMapping req) g = Some "" ->
  importHandler env fetch req =
  (Replied (Status400 (missingAccount g)),
   List.map (callOf env req m) (take i (entries grouped))).
Proof.
  intros Hentry.
  pose proof (resolveAccount_unmapped _ _ group_not_inherited Hentry) as Hresolved.
  rewrite importHandler_reaches, importLoop_live by assumption.
  apply isEmpty_false in Hurl. rewrite Hurl, Hresolved. reflexivity.
Qed.

End LiveGroup.

(** C2, as stated, fails: in live mode, with the only group's account
    resolved, the handler makes no call when no server URL is configured;
    it replies 400 first. *)
Lemma live_group_without_server_url_not_called :
  ~ (forall env fetch req rows0 m grouped i g rs account,
       rows req = Some rows0 -> mapping req = Some m ->
       groupRows rows0 (groupByColumn req) = Normal grouped ->
       liveMode env req = true ->
       entries grouped !! i = Some (g, rs) ->
       passes env fetch req m [] (take i (entries grouped)) ->
       accountEntry (accountMapping req) g = Some account -> account <> "" ->
       exists call,
         snd (importHandler env fetch req) !! i = Some call /\
         transactions call = List.filter isValid (normalized m rs)).
Proof.
  intros H.
  destruct (H noEnv alwaysOk (groupedRequest (Some false) allAccounts)
              threeGroupRows accountRules threeGroups 0%nat
              "Betaal" [ accountRow "Betaal" "01-01-2024" "12,50";
                         accountRow "Betaal" "03-01-2024" "-7,25" ]
              "acc-checking") as (call & Hcall & _).
  - reflexivity.
  - reflexivity.
  - vm_compute. reflexivity.
  - reflexivity.
  - vm_compute. reflexivity.
  - intros j e Hje. rewrite take_0 in Hje. destruct j; discriminate.
  - vm_compute. reflexivity.
  - discriminate.
  - vm_compute in Hcall. discriminate.
Qed.

Example no_server_url_reply :
  importHandler noEnv alwaysOk (groupedRequest (Some false) allAccounts) =
  (Replied (Status400 "ACTUAL_SERVER_URL ontbreekt voor import."), []).
Proof. vm_compute. reflexivity. Qed.

(** C2 (amended): in live mode and with a server URL that is not empty,
    for every group the loop reaches (each group before it had an account
    and a call answered with [ok]) and whose account is resolved, the
    call of the transaction import is made, for that account and with
    exactly the group's transactions that are valid (an amount and a
    non-empty date), be that list empty or not. *)
Theorem live_call_carries_valid_transactions
    env fetch req rows0 m grouped i g rs account :
  rows req = Some rows0 -> mapping req = Some m ->
  groupRows rows0 (groupByColumn req) = Normal grouped ->
  liveMode env req = true ->
  effectiveServerUrl env req <> "" ->
  entries grouped !! i = Some (g, rs) ->
  passes env fetch req m [] (take i (entries grouped)) ->
  accountEntry (accountMapping req) g = Some account -> account <> "" ->
  exists call,
    snd (importHandler env fetch req) !! i = Some call /\
    bodyAccountId call = JsStr account /\
    transactions call = List.filter isValid (normalized m rs) /\
    (forall t, In t (transactions call) <->
               In t (normalized m rs) /\ is_Some (amount t) /\ truthy (date t) = true).
Proof.
  intros Hrows Hm Hgrouped Hlive Hurl Hgroup Hreached Hentry Hne.
  exists (callOf env req m (g, rs)).
  destruct (live_group_called env fetch req rows0 m grouped i g rs
              Hrows Hm Hgrouped Hlive Hurl Hgroup Hreached account Hentry Hne)
    as (Hcall & Hacc & Htx).
  repeat split; try assumption.
  - rewrite Htx in H. apply filter_In in H. apply H.
  - rewrite Htx in H. apply filter_In in H. apply isValid_spec, H.
  - rewrite Htx in H. apply filter_In in H. apply isValid_spec, H.
  - intros (Hin & Hamount & Hdate). rewrite Htx. apply filter_In.
    split; [exact Hin|]. now apply isValid_spec.
Qed.

(** The third group of the sample has no valid transaction: its call is
    made all the same, with an empty list. *)
Lemma live_call_carries_valid_transactions_witness :
  exists call,
    snd (importHandler liveEnv alwaysOk (groupedRequest (Some false) allAccounts)) !! 2%nat
    = Some call /\
    bodyAccountId call = JsStr "acc-card" /\
    transactions call = [].
Proof.
  destruct (live_call_carries_valid_transactions liveEnv alwaysOk
              (groupedRequest (Some false) allAccounts)
              threeGroupRows accountRules threeGroups 2
              "Creditcard" [accountRow "Creditcard" "" "-"] "acc-card")
    as (call & Hcall & Hacc & Htx & _).
  - reflexivity.
  - reflexivity.
  - vm_compute. reflexivity.
  - reflexivity.
  - vm_compute. discriminate.
  - vm_compute. reflexivity.
  - intros j e Hje. destruct j as [|[|j]]; vm_compute in Hje; try discriminate;
      injection Hje as <-; split; vm_compute; reflexivity.
  - vm_compute. reflexivity.
  - discriminate.
  - exists call. split; [exact Hcall|]. split; [exact Hacc|].
    rewrite Htx. vm_compute. reflexivity.
Defined.

(** C4, as stated, fails: in live mode a group without account does not
    always end the request with the missing-account error; when no
    server URL is configured the handler answers with that error
    first. *)
Lemma missing_account_is_checked_second :
  ~ (forall env fetch req rows0 m grouped i g rs,
       rows req = Some rows0 -> mapping req = Some m ->
       groupRows rows0 (groupByColumn req) = Normal grouped ->
       liveMode env req = true ->
       entries grouped !! i = Some (g, rs) ->
       passes env fetch req m [] (take i (entries grouped)) ->
       accountEntry (accountMapping req) g = None \/
       accountEntry (accountMapping req) g = Some "" ->
       fst (importHandler env fetch req) = Replied (Status400 (missingAccount g))).
Proof.
  intros H.
  specialize (H noEnv alwaysOk (groupedRequest (Some false) ∅)
                threeGroupRows accountRules threeGroups 0%nat
                "Betaal" [ accountRow "Betaal" "01-01-2024" "12,50";
                           accountRow "Betaal" "03-01-2024" "-7,25" ]).
  assert (fst (importHandler noEnv alwaysOk (groupedRequest (Some false) ∅))
          = Replied (Status400 (missingAccount "Betaal"))) as Habs.
  { apply H.
    - reflexivity.
    - reflexivity.
    - vm_compute. reflexivity.
    - reflexivity.
    - vm_compute. reflexivity.
    - intros j e Hje. rewrite take_0 in Hje. destruct j; discriminate.
    - left. reflexivity. }
  vm_compute in Habs. discriminate.
Qed.

(** C4 (amended): in live mode and with a server URL that is not empty,
    a group the loop reaches whose key has no entry, or an empty one, in
    the account mapping ends the request with the missing-account error:
    the trace holds the calls of the groups before it and none for it or
    for a later group.  In dry-run mode the account mapping is not looked
    at for failure: the handler replies with the summary of all groups
    and makes no call. *)
Theorem missing_account_aborts env fetch req rows0 m grouped :
  rows req = Some rows0 -> mapping req = Some m ->
  groupRows rows0 (groupByColumn req) = Normal grouped ->
  (forall i g rs,
     liveMode env req = true ->
     effectiveServerUrl env req <> "" ->
     entries grouped !! i = Some (g, rs) ->
     passes env fetch req m [] (take i (entries grouped)) ->
     accountEntry (accountMapping req) g = None \/
     accountEntry (accountMapping req) g = Some "" ->
     importHandler env fetch req =
     (Replied (Status400 (missingAccount g)),
      List.map (callOf env req m) (take i (entries grouped)))) /\
  (dryRunFlag req = true ->
   importHandler env fetch req =
   (Replied (Status200
      (importResult true (List.map (resultOf req m) (entries grouped)))), [])).
Proof.
  intros Hrows Hm Hgrouped. split.
  - intros i g rs Hlive Hurl Hgroup Hreached Hentry.
    now apply (live_group_unmapped env fetch req rows0 m grouped i g rs).
  - intros Hdry.
    rewrite (importHandler_grouped _ _ _ _ _ _ Hrows Hm Hgrouped).
    rewrite importLoop_dry by now rewrite Hdry. now rewrite Hdry.
Qed.

(** In the sample, [Spaar] has no account: live, the request fails after
    the call for [Betaal] and before any other; dry, with no account at
    all, the summary comes back and every group has a [null] account. *)
Lemma missing_account_aborts_witness :
  importHandler liveEnv alwaysOk (groupedRequest (Some false) someAccounts) =
    (Replied (Status400 "Geen account gekoppeld voor groep 'Spaar'."),
     List.map (callOf liveEnv (groupedRequest (Some false) someAccounts) accountRules)
              (take 1 threeGroups)) /\
  importHandler liveEnv alwaysOk (groupedRequest (Some true) ∅) =
    (Replied (Status200
       (importResult true
          (List.map (resultOf (groupedRequest (Some true) ∅) accountRules) threeGroups))),
     []).
Proof.
  split.
  - destruct (missing_account_aborts liveEnv alwaysOk
                (groupedRequest (Some false) someAccounts)
                threeGroupRows accountRules threeGroups) as [Hlive _].
    + reflexivity.
    + reflexivity.
    + vm_compute. reflexivity.
    + apply (Hlive 1%nat "Spaar" [accountRow "Spaar" "02-01-2024" "1.000,00"]).
      * reflexivity.
      * vm_compute. discriminate.
      * vm_compute. reflexivity.
      * intros j e Hje. destruct j as [|j]; vm_compute in Hje; try discriminate.
        injection Hje as <-. split; vm_compute; reflexivity.
      * left. vm_compute. reflexivity.
  - destruct (missing_account_aborts liveEnv alwaysOk
                (groupedRequest (Some true) ∅)
                threeGroupRows accountRules threeGroups) as [_ Hdry].
    + reflexivity.
    + reflexivity.
    + vm_compute. reflexivity.
    + apply Hdry. reflexivity.
Defined.

(** ** Runs of the handler *)

(** A live import of the sample: three calls, the third with no
    transaction, and the summary says [dryRun: false]. *)
Example live_import_of_three_groups :
  exists result,
    importHandler liveEnv alwaysOk (groupedRequest (Some false) allAccounts)
    = (Replied (Status200 result),
       List.map (callOf liveEnv (groupedRequest (Some false) allAccounts) accountRules)
                threeGroups) /\
    resultDryRun result = false /\
    totalTransactions result = 4%nat /\ totalInvalid result = 1%nat /\
    List.map (fun call => (url call, length (transactions call)))
      (snd (importHandler liveEnv alwaysOk (groupedRequest (Some false) allAccounts)))
    = [ ("https://actual.example.com/api/import-transactions", 2%nat);
        ("https://actual.example.com/api/import-transactions", 1%nat);
        ("https://actual.example.com/api/import-transactions", 0%nat) ].
Proof. eexists. repeat split; vm_compute; reflexivity. Qed.

(** The merge rule drops the empty member and trims the other. *)
Example merge_drops_empty_members :
  applyRule {[ "a" := " x "; "b" := "" ]} mergeRule = "x".
Proof. vm_compute. reflexivity. Qed.

(** One row, no grouping, dry run: one group [all], one transaction,
    none invalid. *)
Example end_to_end_dry_run :
  exists result gr,
    importHandler noEnv alwaysOk
      (dryRequest [bankRow "01-01-2024" "12,50" "X"] threeRules None)
    = (Replied (Status200 result), []) /\
    resultDryRun result = true /\
    totalTransactions result = 1%nat /\ totalInvalid result = 0%nat /\
    groups result = [gr] /\
    (group gr, transactionCount gr, invalidCount gr) = (SINGLE_KEY, 1%nat, 0%nat).
Proof. do 2 eexists. repeat split; vm_compute; reflexivity. Qed.

(** An amount of letters only is imported as 0: the row is not counted
    as invalid. *)
Example letters_amount_counts_as_valid :
  exists result,
    fst (importHandler noEnv alwaysOk
           (dryRequest [bankRow "01-01-2024" "abc" "X"] threeRules None))
    = Replied (Status200 result) /\
    totalInvalid result = 0%nat.
Proof. eexists. split; vm_compute; reflexivity. Qed.

(** The exception of [groupRows] ends the handler, in dry run too. *)
Example inherited_key_ends_the_handler :
  importHandler noEnv alwaysOk (dryRequest constructorRows dateOnly (Some "Naam"))
  = (Uncaught (TypeError "acc[groupKey].push is not a function"), []).
Proof. reflexivity. Qed.

(** The summary lists the groups in the order of the enumeration. *)
Example summary_lists_years_ascending :
  exists result,
    fst (importHandler noEnv alwaysOk (dryRequest yearRows dateOnly (Some "Jaar")))
    = Replied (Status200 result) /\
    List.map group (groups result) = ["2023"; "2024"].
Proof. eexists. split; vm_compute; reflexivity. Qed.

(** A member that is [null] does give the empty string; only a member
    that is missing gives no property. *)
Example null_rule_gives_empty_string :
  mapRows [bankRow "01-01-2024" "12,50" "X"] fullMapping =
  [ {[ "date" := "01-01-2024"; "amount" := "12,50"; "payee" := "X"; "notes" := "" ]} ].
Proof. vm_compute. reflexivity. Qed.

(** * Further properties *)

(** ** Cells *)

Lemma trimEnd_idempotent s : JsString.trimEnd (JsString.trimEnd s) = JsString.trimEnd s.
Proof.
  induction s as [|c s IH]; simpl; [reflexivity|].
  destruct (JsString.trimEnd s) as [|d t] eqn:Hend.
  - destruct (JsString.isWhiteSpace c) eqn:Hc; simpl; [reflexivity|]. now rewrite Hc.
  - cbn [JsString.trimEnd] in *. rewrite IH. reflexivity.
Qed.

Lemma trimStart_clean s :
  match JsString.trimStart s with
  | String c _ => JsString.isWhiteSpace c = false
  | EmptyString => True
  end.
Proof.
  induction s as [|c s IH]; simpl; [exact I|].
  destruct (JsString.isWhiteSpace c) eqn:Hc; [exact IH|exact Hc].
Qed.

Lemma trimStart_trimEnd s :
  match s with String c _ => JsString.isWhiteSpace c = false | EmptyString => True end ->
  JsString.trimStart (JsString.trimEnd s) = JsString.trimEnd s.
Proof.
  destruct s as [|c s]; [reflexivity|]. intros Hc. simpl.
  destruct (JsString.trimEnd s); [rewrite Hc|]; simpl; now rewrite Hc.
Qed.

Lemma trimStart_trim s : JsString.trimStart (JsString.trim s) = JsString.trim s.
Proof. apply trimStart_trimEnd, trimStart_clean. Qed.

Lemma trim_idempotent s : JsString.trim (JsString.trim s) = JsString.trim s.
Proof.
  unfold JsString.trim at 1. rewrite trimStart_trim. apply trimEnd_idempotent.
Qed.

(** X1: what [normalizeCellValue] returns has no white space left at
    either end, and normalising it again changes nothing. *)
Theorem normalizeCellValue_idempotent value :
  normalizeCellValue (JsStr (normalizeCellValue value)) = normalizeCellValue value /\
  JsString.trimStart (normalizeCellValue value) = normalizeCellValue value /\
  JsString.trimEnd (normalizeCellValue value) = normalizeCellValue value.
Proof.
  destruct value; simpl; repeat split;
    first [reflexivity | apply trim_idempotent | apply trimStart_trim
          | apply trimEnd_idempotent].
Qed.

(** ** Amounts *)

Lemma keep_trimStart p s :
  (forall c, JsString.isWhiteSpace c = true -> p c = false) ->
  JsString.keep p (JsString.trimStart s) = JsString.keep p s.
Proof.
  intros Hp. induction s as [|c s IH]; simpl; [reflexivity|].
  destruct (JsString.isWhiteSpace c) eqn:Hc; [|reflexivity].
  now rewrite (Hp c Hc).
Qed.

Lemma keep_trimEnd p s :
  (forall c, JsString.isWhiteSpace c = true -> p c = false) ->
  JsString.keep p (JsString.trimEnd s) = JsString.keep p s.
Proof.
  intros Hp. induction s as [|c s IH]; simpl; [reflexivity|].
  destruct (JsString.trimEnd s) as [|d t] eqn:Hend.
  - destruct (JsString.isWhiteSpace c) eqn:Hc.
    + rewrite (Hp c Hc). exact IH.
    + simpl. simpl in IH. now rewrite <- IH.
  - change (JsString.keep p (String c (String d t)))
      with (if p c then String c (JsString.keep p (String d t))
            else JsString.keep p (String d t)).
    rewrite IH. reflexivity.
Qed.

Lemma keep_trim p s :
  (forall c, JsString.isWhiteSpace c = true -> p c = false) ->
  JsString.keep p (JsString.trim s) = JsString.keep p s.
Proof.
  intros Hp. unfold JsString.trim. now rewrite keep_trimEnd, keep_trimStart.
Qed.

Lemma keep_idempotent p s : JsString.keep p (JsString.keep p s) = JsString.keep p s.
Proof.
  induction s as [|c s IH]; simpl; [reflexivity|].
  destruct (p c) eqn:Hc; simpl; [rewrite Hc; now rewrite IH|exact IH].
Qed.

Lemma whitespace_not_significant c :
  JsString.isWhiteSpace c = true -> amountSignificant c = false.
Proof.
  destruct c as [[] [] [] [] [] [] [] []]; vm_compute; congruence.
Qed.

(** Every character is the dot, the comma, a digit or minus sign, or
    none of these. *)
Lemma amount_char_class c :
  c = "."%char \/ c = ","%char \/
  (amountSignificant c = true /\ amountChar c = true /\
   Ascii.eqb "." c = false /\ Ascii.eqb "," c = false) \/
  (amountSignificant c = false /\ amountChar c = false /\
   Ascii.eqb "." c = false /\ Ascii.eqb "," c = false).
Proof.
  destruct c as [[] [] [] [] [] [] [] []]; vm_compute; auto 10.
Qed.

(** After the first comma the strip only looks at digits and minus
    signs. *)
Lemma strip_after_comma s :
  JsString.keep amountChar (JsString.removeAll "." (JsString.keep amountSignificant s)) =
  JsString.keep amountChar (JsString.removeAll "." s).
Proof.
  induction s as [|c s IH]; [reflexivity|].
  destruct (amount_char_class c) as [-> | [-> | [(Hs & Ha & Hd & Hc) | (Hs & Ha & Hd & Hc)]]].
  - exact IH.
  - exact IH.
  - cbn [JsString.keep JsString.removeAll JsString.replaceFirst]. rewrite Hs. cbn [JsString.keep JsString.removeAll JsString.replaceFirst]. rewrite Hd. cbn [JsString.keep JsString.removeAll JsString.replaceFirst]. rewrite Ha, IH. reflexivity.
  - cbn [JsString.keep JsString.removeAll JsString.replaceFirst]. rewrite Hs, Hd. cbn [JsString.keep JsString.removeAll JsString.replaceFirst]. rewrite Ha. exact IH.
Qed.

(** The strip looks at the digits, the commas and the minus signs
    only. *)
Lemma normalizeAmountText_significant s :
  normalizeAmountText (JsString.keep amountSignificant s) = normalizeAmountText s.
Proof.
  unfold normalizeAmountText. induction s as [|c s IH]; [reflexivity|].
  destruct (amount_char_class c) as [-> | [-> | [(Hs & Ha & Hd & Hc) | (Hs & Ha & Hd & Hc)]]].
  - exact IH.
  - change (JsString.keep amountSignificant (String "," s))
      with (String "," (JsString.keep amountSignificant s)).
    change (JsString.removeAll "." (String "," ?x)) with (String "," (JsString.removeAll "." x)).
    cbn [JsString.keep JsString.removeAll JsString.replaceFirst]. change (Ascii.eqb "," ",") with true. cbv iota.
    cbn [JsString.keep JsString.removeAll JsString.replaceFirst]. change (amountChar ".") with true. cbv iota.
    now rewrite strip_after_comma.
  - cbn [JsString.keep JsString.removeAll JsString.replaceFirst]. rewrite Hs. cbn [JsString.keep JsString.removeAll JsString.replaceFirst]. rewrite Hd. cbn [JsString.keep JsString.removeAll JsString.replaceFirst]. rewrite Hc. cbn [JsString.keep JsString.removeAll JsString.replaceFirst].
    rewrite Ha, IH. reflexivity.
  - cbn [JsString.keep JsString.removeAll JsString.replaceFirst]. rewrite Hs, Hd. cbn [JsString.keep JsString.removeAll JsString.replaceFirst]. rewrite Hc. cbn [JsString.keep JsString.removeAll JsString.replaceFirst]. rewrite Ha. exact IH.
Qed.

(** X2: the amount of a cell depends only on its digits, commas and
    minus signs, as soon as it has one of them: dots, currency signs,
    letters and blanks anywhere in the cell change nothing. *)
Theorem parseAmount_significant_characters text :
  JsString.keep amountSignificant text <> "" ->
  parseAmount (JsStr text) = parseAmount (JsStr (JsString.keep amountSignificant text)).
Proof.
  intros Hne.
  assert (forall t, JsString.keep amountSignificant t <> "" ->
            parseAmount (JsStr t) =
            JsNumber.finiteOrNull
              (JsNumber.Number (normalizeAmountText (JsString.keep amountSignificant t))))
    as Hparse.
  { intros t Ht. unfold parseAmount. simpl normalizeCellValue.
    destruct (JsString.isEmpty (JsString.trim t)) eqn:Hempty.
    - apply isEmpty_true in Hempty. exfalso. apply Ht.
      rewrite <- (keep_trim amountSignificant t whitespace_not_significant).
      now rewrite Hempty.
    - rewrite <- (normalizeAmountText_significant (JsString.trim t)).
      now rewrite (keep_trim amountSignificant t whitespace_not_significant). }
  rewrite (Hparse text Hne).
  rewrite (Hparse (JsString.keep amountSignificant text));
    rewrite keep_idempotent; [reflexivity|exact Hne].
Qed.

Lemma parseAmount_significant_characters_witness :
  JsString.keep amountSignificant "EUR 1.234,56 af" = "1234,56" /\
  parseAmount (JsStr "EUR 1.234,56 af") = parseAmount (JsStr "1234,56").
Proof.
  split; [vm_compute; reflexivity|].
  apply (parseAmount_significant_characters "EUR 1.234,56 af").
  vm_compute. discriminate.
Defined.

(** ** Rules *)

Lemma trim_starts_clean c s :
  JsString.isWhiteSpace c = false -> JsString.trim (String c s) <> "".
Proof.
  intros Hc. unfold JsString.trim. simpl. rewrite Hc. simpl.
  destruct (JsString.trimEnd s); [rewrite Hc|]; discriminate.
Qed.

Lemma inherited_text key :
  inherited key = true -> normalizeCellValue (objectPrototypeGet key) <> "".
Proof.
  unfold inherited, objectPrototypeGet.
  destruct (String.eqb key "constructor"); [intros _; vm_compute; discriminate|].
  destruct (String.eqb key "__proto__"); [intros _; vm_compute; discriminate|].
  destruct (existsb (String.eqb key) objectPrototypeMethods); [|discriminate].
  intros _. simpl. apply trim_starts_clean. reflexivity.
Qed.

Lemma not_inherited_undefined key :
  inherited key = false -> objectPrototypeGet key = JsUndefined.
Proof.
  unfold inherited, objectPrototypeGet.
  destruct (String.eqb key "constructor"); [discriminate|].
  destruct (String.eqb key "__proto__"); [discriminate|].
  destruct (existsb (String.eqb key) objectPrototypeMethods); [discriminate|reflexivity].
Qed.

(** X3: a rule that is not a merge, on a column the row does not have,
    gives the empty string, unless the column bears the name of a
    property every object inherits ([constructor], [toString], ...): then
    it gives the text of that property. *)
Theorem direct_rule_on_missing_column (row : Row) rule c :
  type rule <> Some "merge" -> column rule = Some c -> row !! c = None ->
  (applyRule row rule = "" <-> inherited c = false) /\
  applyRule row rule = normalizeCellValue (objectPrototypeGet c).
Proof.
  intros Htype Hcol Hmiss. unfold applyRule, jsGet.
  rewrite bool_decide_eq_false_2 by exact Htype. rewrite Hcol. simpl. rewrite Hmiss.
  split; [|reflexivity]. split.
  - intros Hempty. destruct (inherited c) eqn:Hinh; [|reflexivity].
    exfalso. now apply (inherited_text c Hinh).
  - intros Hinh. now rewrite (not_inherited_undefined c Hinh).
Qed.

Lemma direct_rule_on_missing_column_witness :
  applyRule (bankRow "01-01-2024" "12,50" "X") (directRule "Omschrijving") = "" /\
  applyRule (bankRow "01-01-2024" "12,50" "X") (directRule "valueOf")
  = "function valueOf() { [native code] }".
Proof.
  split.
  - destruct (direct_rule_on_missing_column
                (bankRow "01-01-2024" "12,50" "X") (directRule "Omschrijving") "Omschrijving")
      as [[_ Hempty] _];
      [discriminate|reflexivity|vm_compute; reflexivity|].
    apply Hempty. vm_compute. reflexivity.
  - destruct (direct_rule_on_missing_column
                (bankRow "01-01-2024" "12,50" "X") (directRule "valueOf") "valueOf")
      as [_ ->];
      [discriminate|reflexivity|vm_compute; reflexivity|].
    vm_compute. reflexivity.
Defined.

Lemma mergedValues_app (row : Row) cols1 cols2 :
  List.filter (fun v => negb (JsString.isEmpty v))
    (List.map (fun column => normalizeCellValue (jsGet row column)) (cols1 ++ cols2)) =
  List.filter (fun v => negb (JsString.isEmpty v))
    (List.map (fun column => normalizeCellValue (jsGet row column)) cols1) ++
  List.filter (fun v => negb (JsString.isEmpty v))
    (List.map (fun column => normalizeCellValue (jsGet row column)) cols2).
Proof. now rewrite List.map_app, List.filter_app. Qed.

(** X4: in a merge, a column whose cell is blank (or missing) leaves no
    trace: the merged value is that of the rule without the column, and
    when every column is blank the value is the empty string, whatever
    the separator. *)
Theorem merge_drops_blank_columns (row : Row) rule cols :
  type rule = Some "merge" -> columns rule = Some cols ->
  (forall before c after,
     cols = before ++ c :: after ->
     normalizeCellValue (jsGet row c) = "" ->
     applyRule row rule = applyRule row (withColumns rule (before ++ after))) /\
  (Forall (fun c => normalizeCellValue (jsGet row c) = "") cols ->
   applyRule row rule = "").
Proof.
  intros Htype Hcols. unfold applyRule, withColumns. simpl.
  rewrite !bool_decide_eq_true_2 by exact Htype. rewrite Hcols. simpl. split.
  - intros before c after -> Hblank.
    rewrite !mergedValues_app. simpl. rewrite Hblank. reflexivity.
  - intros Hall.
    assert (List.filter (fun v => negb (JsString.isEmpty v))
              (List.map (fun column => normalizeCellValue (jsGet row column)) cols) = [])
      as ->; [|reflexivity].
    clear Hcols. induction Hall as [|c cols Hc _ IH]; [reflexivity|].
    cbn [List.map List.filter]. rewrite Hc. exact IH.
Qed.

Lemma merge_drops_blank_columns_witness :
  applyRule {[ "a" := " x "; "b" := ""; "c" := "y" ]} (withColumns mergeRule ["a"; "b"; "c"])
  = applyRule {[ "a" := " x "; "b" := ""; "c" := "y" ]} (withColumns mergeRule ["a"; "c"]) /\
  applyRule {[ "a" := " x "; "b" := ""; "c" := "y" ]} (withColumns mergeRule ["b"; "d"]) = "".
Proof.
  split.
  - destruct (merge_drops_blank_columns {[ "a" := " x "; "b" := ""; "c" := "y" ]}
                (withColumns mergeRule ["a"; "b"; "c"]) ["a"; "b"; "c"]) as [Hdrop _];
      [reflexivity|reflexivity|].
    apply (Hdrop ["a"] "b" ["c"]); [reflexivity|vm_compute; reflexivity].
  - destruct (merge_drops_blank_columns {[ "a" := " x "; "b" := ""; "c" := "y" ]}
                (withColumns mergeRule ["b"; "d"]) ["b"; "d"]) as [_ Hall];
      [reflexivity|reflexivity|].
    apply Hall. repeat constructor; vm_compute; reflexivity.
Defined.

(** ** The two mappers *)

Lemma lookup_jsSet (o : Row) k v k' :
  jsSet o k v !! k' =
  if String.eqb k "__proto__" then o !! k'
  else if String.eqb k k' then Some v else o !! k'.
Proof.
  unfold jsSet. destruct (String.eqb k "__proto__"); [reflexivity|].
  destruct (String.eqb_spec k k') as [->|Hne].
  - apply lookup_insert_eq.
  - now apply lookup_insert_ne.
Qed.

Lemma lookup_mapField row (o : Row) k rule k' :
  mapField row o (k, rule) !! k' =
  if String.eqb k "__proto__" then o !! k'
  else if String.eqb k k' then Some (ruleValue row rule) else o !! k'.
Proof. destruct rule; apply lookup_jsSet. Qed.

(** A key the mapping does not have is left as it was. *)
Lemma lookup_mapFields_other row mapping k : forall o : Row,
  ~ In k (List.map fst mapping) ->
  fold_left (mapField row) mapping o !! k = o !! k.
Proof.
  induction mapping as [|[k' rule] mapping IH]; intros o Hnotin; [reflexivity|].
  cbn [fold_left]. rewrite IH by (intros Hin; apply Hnotin; now right).
  rewrite lookup_mapField. destruct (String.eqb k' "__proto__"); [reflexivity|].
  destruct (String.eqb_spec k' k) as [->|_]; [|reflexivity].
  exfalso. apply Hnotin. now left.
Qed.

(** A key the mapping has once receives the value of its rule. *)
Lemma lookup_mapFields_member row mapping k rule : forall o : Row,
  NoDup (List.map fst mapping) -> In (k, rule) mapping -> k <> "__proto__" ->
  fold_left (mapField row) mapping o !! k = Some (ruleValue row rule).
Proof.
  induction mapping as [|[k' rule'] mapping IH]; intros o Hnd Hin Hk; [contradiction|].
  cbn [List.map fst] in Hnd. apply NoDup_cons in Hnd. destruct Hnd as [Hfresh Hnd].
  cbn [fold_left]. destruct Hin as [Heq|Hin].
  - injection Heq as -> ->.
    rewrite lookup_mapFields_other by (rewrite <- list_elem_of_In; exact Hfresh).
    rewrite lookup_mapField.
    destruct (String.eqb_spec k "__proto__") as [->|_]; [contradiction|].
    now rewrite String.eqb_refl.
  - now apply IH.
Qed.

Lemma mappingGet_member mapping k rule :
  NoDup (List.map fst mapping) -> In (k, rule) mapping -> mappingGet mapping k = rule.
Proof.
  induction mapping as [|[k' rule'] mapping IH]; intros Hnd Hin; [contradiction|].
  cbn [List.map fst] in Hnd. apply NoDup_cons in Hnd. destruct Hnd as [Hfresh Hnd].
  simpl. destruct Hin as [Heq|Hin].
  - injection Heq as -> ->. now rewrite String.eqb_refl.
  - destruct (String.eqb_spec k' k) as [->|_]; [|now apply IH].
    exfalso. apply Hfresh. rewrite list_elem_of_In. apply (in_map fst) in Hin. exact Hin.
Qed.

Lemma lookup_applyMappingRow mapping row k :
  applyMappingRow mapping row !! k =
  if existsb (String.eqb k) TARGET_FIELDS
  then Some (ruleValue row (mappingGet mapping k)) else None.
Proof.
  unfold applyMappingRow, TARGET_FIELDS. cbn [fold_left existsb].
  rewrite !lookup_mapField.
  change (String.eqb "date" "__proto__") with false.
  change (String.eqb "amount" "__proto__") with false.
  change (String.eqb "payee" "__proto__") with false.
  change (String.eqb "notes" "__proto__") with false. cbv iota.
  assert (forall a, a <> k -> String.eqb k a = false) as Hne
    by (intros a Ha; apply String.eqb_neq; congruence).
  destruct (String.eqb_spec "notes" k) as [<-|Hnotes]; [reflexivity|].
  destruct (String.eqb_spec "payee" k) as [<-|Hpayee]; [reflexivity|].
  destruct (String.eqb_spec "amount" k) as [<-|Hamount]; [reflexivity|].
  destruct (String.eqb_spec "date" k) as [<-|Hdate]; [reflexivity|].
  rewrite !Hne by assumption. apply lookup_empty.
Qed.

(** When the keys of the mapping are the four target fields, each once,
    the server's mapper and the front end's give the same row. *)
Lemma mapRow_applyMappingRow mapping row :
  NoDup (List.map fst mapping) ->
  (forall k, In k (List.map fst mapping) <-> In k TARGET_FIELDS) ->
  mapRow mapping row = applyMappingRow mapping row.
Proof.
  intros Hnd Hkeys. apply map_eq. intros k. rewrite lookup_applyMappingRow.
  unfold mapRow. destruct (existsb (String.eqb k) TARGET_FIELDS) eqn:Htarget.
  - apply existsb_exists in Htarget. destruct Htarget as (k' & Hin & Heq).
    apply String.eqb_eq in Heq. subst k'.
    pose proof Hin as Hin'. apply Hkeys in Hin'. apply in_map_iff in Hin'.
    destruct Hin' as ([k' rule] & Hfst & Hmember). simpl in Hfst. subst k'.
    rewrite (mappingGet_member _ _ _ Hnd Hmember).
    apply lookup_mapFields_member; try assumption.
    intros ->. unfold TARGET_FIELDS in Hin. simpl in Hin.
    repeat (destruct Hin as [Hin|Hin]; [discriminate|]). contradiction.
  - rewrite lookup_mapFields_other; [apply lookup_empty|].
    intros Hin. apply Hkeys in Hin.
    assert (existsb (String.eqb k) TARGET_FIELDS = true) as Habs; [|congruence].
    apply existsb_exists. exists k. split; [exact Hin|apply String.eqb_refl].
Qed.

(** X5: for a mapping whose keys are the four target fields, each once
    (in any order), [mapRows] on the server and [applyMapping] in the
    front end return the same rows: what the preview shows is what the
    import maps. *)
Theorem mapRows_agrees_with_preview rows mapping :
  NoDup (List.map fst mapping) ->
  (forall k, In k (List.map fst mapping) <-> In k TARGET_FIELDS) ->
  mapRows rows mapping = applyMapping rows mapping.
Proof.
  intros Hnd Hkeys. unfold mapRows, applyMapping. apply map_ext.
  intros row. now apply mapRow_applyMappingRow.
Qed.

Lemma mapRows_agrees_with_preview_witness :
  mapRows [bankRow "01-01-2024" "12,50" "X"] fullMapping
  = applyMapping [bankRow "01-01-2024" "12,50" "X"] fullMapping.
Proof.
  apply (mapRows_agrees_with_preview [bankRow "01-01-2024" "12,50" "X"] fullMapping).
  - repeat constructor; vm_compute; set_solver.
  - intros k. vm_compute. tauto.
Defined.

(** ** The mapping of the form *)

Lemma keys_spreadMember prev key rule :
  In key (List.map fst prev) ->
  List.map fst (spreadMember prev key rule) = List.map fst prev.
Proof.
  induction prev as [|[k r] prev IH]; simpl; [contradiction|].
  destruct (String.eqb_spec k key) as [->|Hne]; [reflexivity|].
  intros [Heq|Hin]; [contradiction|]. simpl. now rewrite IH.
Qed.

Lemma mappingGet_spreadMember prev key rule k :
  In key (List.map fst prev) ->
  mappingGet (spreadMember prev key rule) k =
  if String.eqb key k then rule else mappingGet prev k.
Proof.
  induction prev as [|[k' r] prev IH]; simpl; [contradiction|].
  destruct (String.eqb_spec k' key) as [->|Hne]; simpl.
  - intros _. destruct (String.eqb key k); reflexivity.
  - intros [Heq|Hin]; [contradiction|].
    destruct (String.eqb_spec k' k) as [->|Hne'].
    + destruct (String.eqb_spec key k) as [->|_]; [contradiction|reflexivity].
    + now apply IH.
Qed.

(** The edits of the form keep the four keys of the mapping, in their
    order, each with a rule. *)
Lemma editedMapping_keys headers edits :
  Forall (fun edit => In (fst edit) TARGET_FIELDS) edits ->
  List.map fst (editedMapping headers edits) = TARGET_FIELDS /\
  (forall k, In k TARGET_FIELDS -> is_Some (mappingGet (editedMapping headers edits) k)).
Proof.
  unfold editedMapping.
  assert (List.map fst (initialMapping headers) = TARGET_FIELDS /\
          (forall k, In k TARGET_FIELDS -> is_Some (mappingGet (initialMapping headers) k)))
    as Hinit.
  { split; [reflexivity|]. intros k Hin. unfold TARGET_FIELDS in Hin. simpl in Hin.
    destruct Hin as [<-|[<-|[<-|[<-|[]]]]]; simpl; eauto. }
  revert Hinit. generalize (initialMapping headers) as m.
  induction edits as [|[key patch] edits IH]; intros m Hm Hall; [exact Hm|].
  inversion Hall as [|? ? Hkey Hrest]; subst. simpl in Hkey. cbn [fold_left fst snd].
  apply IH; [|exact Hrest]. destruct Hm as [Hkeys Hrules]. unfold updateRule. split.
  - rewrite keys_spreadMember by (rewrite Hkeys; exact Hkey). exact Hkeys.
  - intros k Hk. rewrite mappingGet_spreadMember by (rewrite Hkeys; exact Hkey).
    destruct (String.eqb key k); eauto.
Qed.

(** X6: whatever edits the form makes to the rules of the four target
    fields, starting from the mapping installed at upload, the mapping
    keeps exactly the four keys, each with a rule; so the server maps
    every row to the four fields and agrees with the preview. *)
Theorem form_mapping_has_four_fields headers edits rows :
  Forall (fun edit => In (fst edit) TARGET_FIELDS) edits ->
  List.map fst (editedMapping headers edits) = TARGET_FIELDS /\
  mapRows rows (editedMapping headers edits) = applyMapping rows (editedMapping headers edits) /\
  Forall (fun mapped : Row => dom mapped = list_to_set TARGET_FIELDS)
         (mapRows rows (editedMapping headers edits)).
Proof.
  intros Hedits. destruct (editedMapping_keys headers edits Hedits) as [Hkeys _].
  split; [exact Hkeys|].
  assert (forall row, mapRow (editedMapping headers edits) row
                      = applyMappingRow (editedMapping headers edits) row) as Hrow.
  { intros row. apply mapRow_applyMappingRow.
    - rewrite Hkeys. unfold TARGET_FIELDS. repeat constructor; set_solver.
    - intros k. now rewrite Hkeys. }
  split.
  - unfold mapRows, applyMapping. apply map_ext. exact Hrow.
  - unfold mapRows. apply Forall_forall. intros mapped Hin.
    apply list_elem_of_In, in_map_iff in Hin. destruct Hin as (row & <- & _).
    rewrite Hrow. apply dom_applyMappingRow.
Qed.

Lemma form_mapping_has_four_fields_witness :
  mapRows [bankRow "01-01-2024" "12,50" "X"] (editedMapping ["Datum"; "Bedrag"; "Naam"] sampleEdits)
  = [ {[ "date" := "01-01-2024"; "amount" := "12,50"; "payee" := "X"; "notes" := "X 12,50" ]} ].
Proof.
  destruct (form_mapping_has_four_fields ["Datum"; "Bedrag"; "Naam"] sampleEdits
              [bankRow "01-01-2024" "12,50" "X"]) as (_ & -> & _).
  - unfold sampleEdits, TARGET_FIELDS. repeat constructor; simpl; tauto.
  - vm_compute. reflexivity.
Defined.

(** ** Groups *)

(** X7: with a grouping column, and when no row has a key that every
    object inherits, [groupRows] returns, and what it returns is a
    partition of the rows: the sizes of the groups add up to the number of
    rows, the keys are distinct, no group is empty, each group holds the
    rows with its key in their original order, and each row is in the
    group of its key. *)
Theorem groupRows_partitions rows column :
  column <> "" ->
  Forall (fun row => inherited (groupKeyOf column row) = false) rows ->
  exists g,
    groupRows rows (Some column) = Normal g /\
    sizes g = length rows /\
    NoDup (List.map fst g) /\
    (forall k rs, In (k, rs) g -> rs <> [] /\ rs = rowsOf column k rows) /\
    (forall row, In row rows ->
       exists rs, In (groupKeyOf column row, rs) g /\ In row rs).
Proof.
  intros Hcol Hsafe. destruct (groupRows_returns rows column Hsafe) as [g Hrun].
  exists g. split; [exact Hrun|].
  destruct (groupRows_with_column rows column g Hcol Hrun) as (Hsize & _ & Hnd & Hgroups).
  split; [exact Hsize|]. split; [exact Hnd|]. split; [exact Hgroups|].
  intros row Hin. unfold groupRows in Hrun.
  apply isEmpty_false in Hcol. rewrite Hcol in Hrun.
  destruct (groupReduce_normal column rows [] [] g) as (Hget & _); [reflexivity|assumption|].
  specialize (Hget (groupKeyOf column row)). simpl in Hget.
  pose proof (rowsOf_In column row rows Hin) as Hrow.
  destruct (rowsOf column (groupKeyOf column row) rows) as [|r rs] eqn:Hrs; [contradiction|].
  exists (r :: rs). split; [|exact Hrow]. now apply ownGet_Some_In.
Qed.

Lemma groupRows_partitions_witness :
  exists g,
    groupRows threeGroupRows (Some "Rekening") = Normal g /\
    sizes g = 4%nat /\
    NoDup (List.map fst g).
Proof.
  destruct (groupRows_partitions threeGroupRows "Rekening") as (g & Hrun & Hsize & Hnd & _).
  - discriminate.
  - repeat constructor; vm_compute; reflexivity.
  - exists g. split; [exact Hrun|]. split; [exact Hsize|exact Hnd].
Defined.

Lemma groupRows_sizes rows col g :
  groupRows rows col = Normal g -> sizes g = length rows.
Proof.
  intros Hrun.
  assert (sizes [(SINGLE_KEY, rows)] = length rows) as Hsingle
    by (unfold sizes; simpl; lia).
  destruct col as [column|]; [|injection Hrun as <-; exact Hsingle].
  destruct (JsString.isEmpty column) eqn:Hcol.
  - unfold groupRows in Hrun. rewrite Hcol in Hrun. injection Hrun as <-. exact Hsingle.
  - apply isEmpty_false in Hcol. now apply (groupRows_with_column rows column g).
Qed.

Lemma groupRows_keys rows col g :
  groupRows rows col = Normal g ->
  List.map fst g = groupKeys rows col /\ NoDup (groupKeys rows col).
Proof.
  intros Hrun.
  assert (NoDup [SINGLE_KEY]) as Hsingle by (apply NoDup_singleton).
  destruct col as [column|]; [|injection Hrun as <-; split; [reflexivity|exact Hsingle]].
  destruct (JsString.isEmpty column) eqn:Hcol.
  - unfold groupRows, groupKeys in *. rewrite Hcol in *. injection Hrun as <-.
    split; [reflexivity|exact Hsingle].
  - apply isEmpty_false in Hcol.
    destruct (groupRows_with_column rows column g Hcol Hrun) as (_ & Hkeys & Hnd & _).
    split; [exact Hkeys|]. now rewrite <- Hkeys.
Qed.

(** X8: when [groupRows] returns, the groups the handler visits are the
    groups the front end lists with [groupKeys], each once (the order
    may differ); so when the form holds a non-empty account for every
    group it lists, the handler finds an account for every group it
    visits. *)
Theorem handler_groups_are_listed_groups rows col g accounts :
  groupRows rows col = Normal g ->
  List.map fst (entries g) ≡ₚ groupKeys rows col /\
  NoDup (groupKeys rows col) /\
  ((forall k, In k (groupKeys rows col) -> hasAccount accounts k) ->
   forall k rs, In (k, rs) (entries g) -> truthy (resolveAccount accounts k) = true).
Proof.
  intros Hrun. destruct (groupRows_keys rows col g Hrun) as [Hkeys Hnd].
  assert (List.map fst (entries g) ≡ₚ groupKeys rows col) as Hperm
    by (rewrite <- Hkeys; apply Permutation_map, entries_Permutation).
  split; [exact Hperm|]. split; [exact Hnd|].
  intros Hform k rs Hin.
  assert (In k (groupKeys rows col)) as Hk.
  { apply list_elem_of_In. rewrite <- Hperm. apply list_elem_of_In.
    apply (in_map fst) in Hin. exact Hin. }
  destruct (Hform k Hk) as (account & Hentry & Hne).
  rewrite (resolveAccount_mapped _ _ _ Hentry Hne). simpl.
  apply isEmpty_false in Hne. now rewrite Hne.
Qed.

Lemma handler_groups_are_listed_groups_witness :
  exists g,
    groupRows yearRows (Some "Jaar") = Normal g /\
    List.map fst (entries g) ≡ₚ groupKeys yearRows (Some "Jaar").
Proof.
  exists [ ("2024", [ {[ "Jaar" := "2024" ]}; {[ "Jaar" := "2024" ]} ]);
           ("2023", [ {[ "Jaar" := "2023" ]} ]) ].
  split; [vm_compute; reflexivity|].
  apply (handler_groups_are_listed_groups yearRows (Some "Jaar") _ None).
  vm_compute. reflexivity.
Defined.

(** ** Summaries and calls *)

Lemma sumOf_list_sum f result : sumOf f result = list_sum (List.map f result).
Proof.
  unfold sumOf.
  enough (forall n, fold_left (fun sum item => sum + f item) result n
                    = n + list_sum (List.map f result)) as H by apply H.
  induction result as [|gr result IH]; intros n; simpl; [lia|]. rewrite IH. lia.
Qed.

Lemma sizes_Permutation (g g' : Groups) : g ≡ₚ g' -> sizes g = sizes g'.
Proof.
  intros Hperm. unfold sizes. induction Hperm; simpl; lia.
Qed.

Lemma length_normalized m rs : length (normalized m rs) = length rs.
Proof. unfold normalized, mapRows. now rewrite !length_map. Qed.

Lemma valid_plus_invalid (l : list Transaction) :
  length (List.filter isValid l) + length (List.filter isInvalid l) = length l.
Proof.
  induction l as [|t l IH]; simpl; [reflexivity|].
  rewrite isInvalid_isValid. destruct (isValid t); simpl; lia.
Qed.

Lemma transactionCount_results req m (g : Groups) :
  list_sum (List.map transactionCount (List.map (resultOf req m) g)) = sizes g.
Proof.
  unfold sizes. induction g as [|[k rs] g IH]; simpl; [reflexivity|].
  rewrite IH, length_normalized. reflexivity.
Qed.

Lemma posted_plus_invalid env req m (g : Groups) :
  posted (List.map (callOf env req m) g) +
  list_sum (List.map invalidCount (List.map (resultOf req m) g)) = sizes g.
Proof.
  unfold posted, sizes. induction g as [|[k rs] g IH]; simpl; [reflexivity|].
  pose proof (valid_plus_invalid (normalized m rs)) as Hsplit.
  rewrite length_normalized in Hsplit. lia.
Qed.

(** A summary reports the groups that were still to visit, after those
    already in the result; in live mode every one of them got its
    call. *)
Lemma importLoop_summary env fetch req m todo : forall result calls summary calls',
  importLoop env fetch req m todo result calls = (Replied (Status200 summary), calls') ->
  summary = importResult (dryRunFlag req) (result ++ List.map (resultOf req m) todo) /\
  (liveMode env req = true -> calls' = calls ++ List.map (callOf env req m) todo) /\
  (liveMode env req = false -> calls' = calls).
Proof.
  induction todo as [|[k rs] todo IH]; intros result calls summary calls' Hrun.
  - simpl in Hrun. injection Hrun as <- <-. rewrite !app_nil_r. auto.
  - destruct (liveMode env req) eqn:Hlive.
    + rewrite importLoop_live in Hrun by exact Hlive.
      destruct (JsString.isEmpty _); [discriminate|].
      destruct (negb _); [discriminate|].
      destruct (fetch calls _); try discriminate.
      destruct (IH _ _ _ _ Hrun) as (Hsummary & Hcalls & _).
      split; [|split; [|discriminate]].
      * rewrite Hsummary. cbn [List.map]. now rewrite <- app_assoc.
      * intros _. rewrite Hcalls by reflexivity. cbn [List.map]. now rewrite <- app_assoc.
    + unfold liveMode in Hlive. apply negb_false_iff in Hlive.
      rewrite importLoop_dry in Hrun by exact Hlive. injection Hrun as <- <-.
      split; [reflexivity|]. split; [discriminate|reflexivity].
Qed.

(** X9: every summary the handler returns counts each row of the request
    once: the total is the number of rows, the invalid ones are among
    them, the summary has one entry per group, and each entry previews
    at most five of its transactions. *)
Theorem summary_counts_every_row env fetch req rows0 summary :
  rows req = Some rows0 ->
  fst (importHandler env fetch req) = Replied (Status200 summary) ->
  totalTransactions summary = length rows0 /\
  totalInvalid summary <= totalTransactions summary /\
  Forall (fun gr => invalidCount gr <= transactionCount gr /\
                    length (preview gr) = Nat.min 5 (transactionCount gr))
         (groups summary).
Proof.
  intros Hrows Hreply. unfold importHandler in Hreply. rewrite Hrows in Hreply.
  destruct (mapping req) as [m|]; [|discriminate].
  destruct (groupRows rows0 (groupByColumn req)) as [g|e] eqn:Hgrouped; [|discriminate].
  destruct (importLoop env fetch req m (entries g) [] []) as [out calls] eqn:Hrun.
  simpl in Hreply. subst out.
  destruct (importLoop_summary _ _ _ _ _ _ _ _ _ Hrun) as (-> & _). simpl.
  assert (Forall (fun gr => invalidCount gr <= transactionCount gr /\
                            length (preview gr) = Nat.min 5 (transactionCount gr))
                 (List.map (resultOf req m) (entries g))) as Hentries.
  { apply Forall_forall. intros gr Hin. apply list_elem_of_In, in_map_iff in Hin.
    destruct Hin as ([k rs] & <- & _). unfold resultOf, groupResult.
    cbn [invalidCount transactionCount preview fst snd].
    split; [|apply length_take].
    pose proof (valid_plus_invalid (normalized m rs)). lia. }
  rewrite !sumOf_list_sum, transactionCount_results.
  rewrite (sizes_Permutation _ _ (entries_Permutation g)).
  rewrite (groupRows_sizes _ _ _ Hgrouped).
  split; [reflexivity|]. split; [|exact Hentries].
  rewrite <- (groupRows_sizes _ _ _ Hgrouped).
  rewrite <- (sizes_Permutation _ _ (entries_Permutation g)).
  rewrite <- (transactionCount_results req m).
  clear Hrun. induction Hentries as [|gr l [Hle _] _ IH]; simpl; lia.
Qed.

Lemma summary_counts_every_row_witness :
  exists summary,
    fst (importHandler liveEnv alwaysOk (groupedRequest (Some true) ∅))
    = Replied (Status200 summary) /\
    totalTransactions summary = 4%nat.
Proof.
  eexists. split; [vm_compute; reflexivity|].
  eapply (summary_counts_every_row liveEnv alwaysOk (groupedRequest (Some true) ∅)
            threeGroupRows).
  - reflexivity.
  - vm_compute. reflexivity.
Defined.

(** X10: when a live import ends with the summary, the handler has made
    one call per group, in the order of the summary, and the
    transactions it posted and those it counts as invalid are together
    all the rows of the request. *)
Theorem live_summary_accounts_for_every_row env fetch req rows0 m g summary :
  rows req = Some rows0 -> mapping req = Some m ->
  groupRows rows0 (groupByColumn req) = Normal g ->
  liveMode env req = true ->
  fst (importHandler env fetch req) = Replied (Status200 summary) ->
  snd (importHandler env fetch req) = List.map (callOf env req m) (entries g) /\
  groups summary = List.map (resultOf req m) (entries g) /\
  posted (snd (importHandler env fetch req)) + totalInvalid summary = length rows0 /\
  resultDryRun summary = false.
Proof.
  intros Hrows Hm Hgrouped Hlive Hreply.
  rewrite (importHandler_grouped _ _ _ _ _ _ Hrows Hm Hgrouped) in *.
  destruct (importLoop env fetch req m (entries g) [] []) as [out calls] eqn:Hrun.
  simpl in *. subst out.
  destruct (importLoop_summary _ _ _ _ _ _ _ _ _ Hrun) as (-> & Hcalls & _).
  rewrite (Hcalls Hlive). simpl.
  split; [reflexivity|]. split; [reflexivity|]. split.
  - rewrite sumOf_list_sum, posted_plus_invalid.
    rewrite (sizes_Permutation _ _ (entries_Permutation g)).
    apply (groupRows_sizes _ _ _ Hgrouped).
  - unfold liveMode in Hlive. apply negb_true_iff, orb_false_iff in Hlive. apply Hlive.
Qed.

Lemma live_summary_accounts_for_every_row_witness :
  posted (snd (importHandler liveEnv alwaysOk (groupedRequest (Some false) allAccounts)))
  = 3%nat /\
  exists summary,
    fst (importHandler liveEnv alwaysOk (groupedRequest (Some false) allAccounts))
    = Replied (Status200 summary) /\
    posted (snd (importHandler liveEnv alwaysOk (groupedRequest (Some false) allAccounts)))
    + totalInvalid summary = 4%nat.
Proof.
  split; [vm_compute; reflexivity|].
  eexists. split; [vm_compute; reflexivity|].
  eapply (live_summary_accounts_for_every_row liveEnv alwaysOk
            (groupedRequest (Some false) allAccounts) threeGroupRows accountRules threeGroups).
  - reflexivity.
  - reflexivity.
  - vm_compute. reflexivity.
  - reflexivity.
  - vm_compute. reflexivity.
Defined.

(** X11: with [MOCK_ACTUAL] set to [true] no request makes a call, not
    even one with [dryRun: false]; such a request still gets the summary
    whenever rows and mapping are there and the grouping returns, without
    server URL and without accounts, and the summary says what the
    request said: [dryRun: false]. *)
Theorem mock_never_calls_ledger env fetch req :
  MOCK_ACTUAL env = Some "true" ->
  snd (importHandler env fetch req) = [] /\
  (forall rows0 m g,
     rows req = Some rows0 -> mapping req = Some m ->
     groupRows rows0 (groupByColumn req) = Normal g ->
     fst (importHandler env fetch req) =
     Replied (Status200
       (importResult (dryRunFlag req) (List.map (resultOf req m) (entries g))))).
Proof.
  intros Hmock.
  assert (dryRunFlag req || mockActual env = true) as Hdry.
  { unfold mockActual. rewrite bool_decide_eq_true_2 by exact Hmock. apply orb_true_r. }
  split; [now apply importHandler_dry_calls|].
  intros rows0 m g Hrows Hm Hgrouped.
  rewrite (importHandler_grouped _ _ _ _ _ _ Hrows Hm Hgrouped).
  now rewrite importLoop_dry.
Qed.

Lemma mock_never_calls_ledger_witness :
  snd (importHandler mockEnv refuseSecond (groupedRequest (Some false) ∅)) = [] /\
  fst (importHandler mockEnv refuseSecond (groupedRequest (Some false) ∅)) =
  Replied (Status200
    (importResult false
       (List.map (resultOf (groupedRequest (Some false) ∅) accountRules) (entries threeGroups)))).
Proof.
  destruct (mock_never_calls_ledger mockEnv refuseSecond (groupedRequest (Some false) ∅))
    as [Hcalls Hreply]; [reflexivity|].
  split; [exact Hcalls|].
  apply (Hreply threeGroupRows accountRules threeGroups).
  - reflexivity.
  - reflexivity.
  - vm_compute. reflexivity.
Defined.

(** X12: a request without rows.  With a grouping column there is no
    group: the handler replies with an empty summary and makes no call,
    in live mode too, with or without server URL and accounts.  Without
    a grouping column there is the one group [all], empty: a live import
    makes its call, with no transaction in it. *)
Theorem import_of_no_rows env fetch req m :
  rows req = Some [] -> mapping req = Some m ->
  (forall column, groupByColumn req = Some column -> column <> "" ->
     importHandler env fetch req =
     (Replied (Status200 (importResult (dryRunFlag req) [])), [])) /\
  (groupByColumn req = None \/ groupByColumn req = Some "" ->
   liveMode env req = true -> effectiveServerUrl env req <> "" ->
   hasAccount (accountMapping req) SINGLE_KEY ->
   snd (importHandler env fetch req) = [callOf env req m (SINGLE_KEY, [])] /\
   transactions (callOf env req m (SINGLE_KEY, [])) = []).
Proof.
  intros Hrows Hm. unfold importHandler. rewrite Hrows, Hm. split.
  - intros column -> Hcol. unfold groupRows. apply isEmpty_false in Hcol.
    rewrite Hcol. reflexivity.
  - intros Hcol Hlive Hurl (account & Hentry & Hne).
    assert (groupRows [] (groupByColumn req) = Normal [(SINGLE_KEY, [])]) as ->
      by (destruct Hcol as [-> | ->]; reflexivity).
    split; [|reflexivity].
    change (entries [(SINGLE_KEY, @nil Row)]) with [(SINGLE_KEY, @nil Row)].
    rewrite importLoop_live by exact Hlive.
    apply isEmpty_false in Hurl. rewrite Hurl.
    rewrite (resolveAccount_mapped _ _ _ Hentry Hne). simpl truthy.
    apply isEmpty_false in Hne. rewrite Hne. cbn [negb].
    destruct (fetch [] _); reflexivity.
Qed.

Lemma import_of_no_rows_witness :
  importHandler noEnv refuseSecond (emptyRequest (Some "Rekening") ∅) =
    (Replied (Status200 (importResult false [])), []) /\
  List.map (fun call => (bodyAccountId call, transactions call))
    (snd (importHandler liveEnv alwaysOk (emptyRequest None {[ "all" := "acc-checking" ]})))
  = [(JsStr "acc-checking", [])].
Proof.
  split.
  - destruct (import_of_no_rows noEnv refuseSecond (emptyRequest (Some "Rekening") ∅)
                accountRules) as [Hgrouped _]; [reflexivity|reflexivity|].
    apply (Hgrouped "Rekening"); [reflexivity|discriminate].
  - destruct (import_of_no_rows liveEnv alwaysOk
                (emptyRequest None {[ "all" := "acc-checking" ]}) accountRules)
      as [_ Hsingle]; [reflexivity|reflexivity|].
    destruct Hsingle as [-> _].
    + left. reflexivity.
    + reflexivity.
    + vm_compute. discriminate.
    + exists "acc-checking". split; [vm_compute; reflexivity|discriminate].
    + vm_compute. reflexivity.
Defined.

(** ** The delimiter *)

Lemma detectDelimiter_unfold csvText :
  detectDelimiter csvText =
  let line := firstLine csvText in
  let semicolons := occurrences ";" line in
  let commas := occurrences "," line in
  let tabs := occurrences "009" line in
  if (semicolons <? commas)%nat
  then if (commas <? tabs)%nat then "009"%char else ","%char
  else if (semicolons <? tabs)%nat then "009"%char else ";"%char.
Proof.
  unfold detectDelimiter, candidates, splitLength. cbn [fold_left]. cbv zeta.
  set (line := firstLine csvText).
  replace (-1 <? Z.of_nat (S (occurrences ";" line)))%Z with true
    by (symmetry; apply Z.ltb_lt; lia).
  destruct (Nat.ltb_spec (occurrences ";" line) (occurrences "," line)) as [Hsc|Hsc].
  - replace (Z.of_nat (S (occurrences ";" line)) <? Z.of_nat (S (occurrences "," line)))%Z
      with true by (symmetry; apply Z.ltb_lt; lia).
    destruct (Nat.ltb_spec (occurrences "," line) (occurrences "009" line)) as [Hct|Hct].
    + replace (Z.of_nat (S (occurrences "," line)) <? Z.of_nat (S (occurrences "009" line)))%Z
        with true by (symmetry; apply Z.ltb_lt; lia). reflexivity.
    + replace (Z.of_nat (S (occurrences "," line)) <? Z.of_nat (S (occurrences "009" line)))%Z
        with false by (symmetry; apply Z.ltb_ge; lia). reflexivity.
  - replace (Z.of_nat (S (occurrences ";" line)) <? Z.of_nat (S (occurrences "," line)))%Z
      with false by (symmetry; apply Z.ltb_ge; lia).
    destruct (Nat.ltb_spec (occurrences ";" line) (occurrences "009" line)) as [Hst|Hst].
    + replace (Z.of_nat (S (occurrences ";" line)) <? Z.of_nat (S (occurrences "009" line)))%Z
        with true by (symmetry; apply Z.ltb_lt; lia). reflexivity.
    + replace (Z.of_nat (S (occurrences ";" line)) <? Z.of_nat (S (occurrences "009" line)))%Z
        with false by (symmetry; apply Z.ltb_ge; lia). reflexivity.
Qed.

(** X13: [detectDelimiter] returns a semicolon, a comma or a tab, one
    that occurs at least as often in the first line as the other two;
    when two occur equally often the semicolon wins over the comma and
    the comma over the tab, so a file without any of them is read with
    semicolons. *)
Theorem detectDelimiter_most_frequent csvText :
  In (detectDelimiter csvText) candidates /\
  (forall c, In c candidates ->
     occurrences c (firstLine csvText)
     <= occurrences (detectDelimiter csvText) (firstLine csvText)) /\
  (occurrences "," (firstLine csvText) <= occurrences ";" (firstLine csvText) ->
   occurrences "009" (firstLine csvText) <= occurrences ";" (firstLine csvText) ->
   detectDelimiter csvText = ";"%char) /\
  (occurrences ";" (firstLine csvText) < occurrences "," (firstLine csvText) ->
   occurrences "009" (firstLine csvText) <= occurrences "," (firstLine csvText) ->
   detectDelimiter csvText = ","%char).
Proof.
  rewrite detectDelimiter_unfold. cbv zeta. set (line := firstLine csvText).
  unfold candidates.
  destruct (Nat.ltb_spec (occurrences ";" line) (occurrences "," line)) as [Hsc|Hsc];
    [destruct (Nat.ltb_spec (occurrences "," line) (occurrences "009" line)) as [Hct|Hct]
    |destruct (Nat.ltb_spec (occurrences ";" line) (occurrences "009" line)) as [Hst|Hst]].
  all: split; [simpl; tauto|].
  all: split; [intros c [<-|[<-|[<-|[]]]]; lia|].
  all: split; intros; first [reflexivity | lia].
Qed.

Lemma detectDelimiter_most_frequent_witness :
  detectDelimiter "Datum,Bedrag;Naam" = ";"%char /\
  detectDelimiter "Datum,Bedrag,Naam;x" = ","%char.
Proof.
  split.
  - apply (detectDelimiter_most_frequent "Datum,Bedrag;Naam"); vm_compute; lia.
  - apply (detectDelimiter_most_frequent "Datum,Bedrag,Naam;x"); vm_compute; lia.
Defined.

Lemma firstLine_no_line_feed line :
  occurrences "010" line = 0%nat -> firstLine line = line.
Proof.
  induction line as [|d line IH]; [reflexivity|]. cbn [occurrences firstLine].
  destruct (Ascii.eqb_spec "010" d) as [<-|Hd]; [discriminate|]. intros Hline.
  rewrite (proj2 (Ascii.eqb_neq d "010")) by congruence.
  rewrite IH by exact Hline.
  destruct line as [|e line]; [now rewrite andb_false_r|].
  cbn [occurrences] in Hline.
  destruct (Ascii.eqb_spec "010" e) as [<-|He]; [discriminate|].
  rewrite (proj2 (Ascii.eqb_neq e "010")) by congruence. now rewrite andb_false_r.
Qed.

Lemma occurrences_firstLine_app c line rest :
  c <> "013"%char -> occurrences "010" line = 0%nat ->
  occurrences c (firstLine (line ++ String "010" rest)) = occurrences c line.
Proof.
  intros Hc. induction line as [|d line IH]; [reflexivity|].
  cbn [occurrences]. destruct (Ascii.eqb_spec "010" d) as [<-|Hd]; [discriminate|].
  intros Hline. change (String d line ++ String "010" rest)%string
    with (String d (line ++ String "010" rest)%string). cbn [firstLine].
  rewrite (proj2 (Ascii.eqb_neq d "010")) by congruence.
  destruct (Ascii.eqb d "013"
            && match (line ++ String "010" rest)%string with
               | String e _ => Ascii.eqb e "010"
               | EmptyString => false
               end) eqn:Hcr.
  - apply andb_true_iff in Hcr. destruct Hcr as [Hcr Hnext].
    apply Ascii.eqb_eq in Hcr. subst d.
    destruct line as [|e line].
    + rewrite (proj2 (Ascii.eqb_neq c "013")) by exact Hc. reflexivity.
    + simpl in Hnext. apply Ascii.eqb_eq in Hnext. subst e.
      cbn [occurrences] in Hline. rewrite Ascii.eqb_refl in Hline. discriminate.
  - cbn [occurrences]. now rewrite IH.
Qed.

(** X14: only the first line of the file counts: what follows the first
    line feed has no influence on the delimiter. *)
Theorem detectDelimiter_first_line_only line rest :
  occurrences "010" line = 0%nat ->
  detectDelimiter (line ++ String "010" rest) = detectDelimiter line.
Proof.
  intros Hline. rewrite !detectDelimiter_unfold. cbv zeta.
  rewrite !occurrences_firstLine_app by (discriminate || exact Hline).
  now rewrite (firstLine_no_line_feed line Hline).
Qed.

Lemma detectDelimiter_first_line_only_witness :
  detectDelimiter ("Datum;Bedrag" ++ String "010" "a,b,c,d,e") = detectDelimiter "Datum;Bedrag".
Proof.
  apply (detectDelimiter_first_line_only "Datum;Bedrag" "a,b,c,d,e"). reflexivity.
Defined.

(** ** Listings *)

Lemma withId_ids entries : Forall (fun entry => entryId entry <> "") (withId entries).
Proof.
  unfold withId. apply Forall_forall. intros entry Hin.
  apply list_elem_of_In, filter_In in Hin. destruct Hin as [_ Hid].
  apply negb_true_iff, isEmpty_false in Hid. exact Hid.
Qed.

Lemma listFromLedger_ids fetch call extract shape error entries :
  listFromLedger fetch call extract shape error = Listing entries ->
  Forall (fun entry => entryId entry <> "") entries.
Proof.
  unfold listFromLedger. destruct (fetch call); try discriminate.
  destruct (shapeAll shape (extract payload)); [|discriminate].
  intros H; injection H as <-. apply withId_ids.
Qed.

(** X15: every account and every budget the two listing handlers
    return has an identifier that is not empty, whatever the ledger
    sent. *)
Theorem listed_entries_have_ids env fetch body entries :
  fst (accountsHandler env fetch body) = Listing entries \/
  fst (budgetsHandler env fetch body) = Listing entries ->
  Forall (fun entry => entryId entry <> "") entries.
Proof.
  unfold accountsHandler, budgetsHandler. cbv zeta.
  destruct (mockActual env).
  - intros [H|H]; injection H as <-; repeat constructor; discriminate.
  - destruct (JsString.isEmpty _); [intros [H|H]; discriminate|].
    simpl. intros [H|H]; now apply listFromLedger_ids in H.
Qed.

Lemma listed_entries_have_ids_witness :
  Forall (fun entry => entryId entry <> "")
    [listedEntry ("acc-1", "Betaalrekening")].
Proof.
  apply (listed_entries_have_ids noEnv
           (answering (JsonArray [listedObject ("acc-1", "Betaalrekening");
                                  listedObject ("", "zonder id")]))
           sampleConfig).
  left. vm_compute. reflexivity.
Defined.

(** Both listing handlers catch what [fetch] throws and reply 502 with
    its message. *)
Example listing_catches_rejected_fetch :
  fst (accountsHandler noEnv (fun _ => ListRejected "fetch failed") sampleConfig) =
    ListStatus502 "Kon rekeningen niet ophalen bij Actual API." "fetch failed" /\
  fst (budgetsHandler noEnv (fun _ => ListRejected "fetch failed") sampleConfig) =
    ListStatus502 "Kon budget IDs niet ophalen bij Actual API." "fetch failed".
Proof. split; vm_compute; reflexivity. Qed.

(** Whatever [String] throws is its failure to convert an object. *)
Lemma joinTexts_throws text items e :
  Forall (fun item => forall e, text item = Throw e -> e = cannotConvert) items ->
  joinTexts text items = Throw e -> e = cannotConvert.
Proof.
  induction 1 as [|item items Hitem _ IH]; cbn [joinTexts]; [discriminate|].
  destruct item; try (destruct (text _) eqn:Htext; [|intros H; injection H as <-; eauto]);
    destruct (joinTexts text items); try discriminate; intros H; apply IH; exact H.
Qed.

Lemma jsonToString_throws : forall j e, jsonToString j = Throw e -> e = cannotConvert.
Proof.
  fix IH 1. intros [|[|]|text|s|items|members] e; cbn [jsonToString]; try discriminate.
  - assert (Forall (fun item => forall e, jsonToString item = Throw e -> e = cannotConvert)
                   items) as Hall.
    { induction items as [|item items IHitems]; constructor; [exact (IH item)|exact IHitems]. }
    destruct (joinTexts jsonToString items) eqn:Hjoin; [discriminate|].
    intros H; injection H as <-. exact (joinTexts_throws _ _ _ Hall Hjoin).
  - destruct (memberOf members "toString"); [|discriminate].
    intros H; injection H as <-. reflexivity.
Qed.

Lemma firstOf_throws a b c fallback e :
  firstOf a b c fallback = Throw e -> e = cannotConvert.
Proof.
  unfold firstOf. destruct (nullish (nullish a b) c) as [j|]; [|discriminate].
  destruct j; try discriminate; apply jsonToString_throws.
Qed.

Lemma shapeAccount_throws item e :
  shapeAccount item = Throw e -> e = readsNull \/ e = cannotConvert.
Proof.
  unfold shapeAccount. destruct item; [intros H; injection H as <-; now left| ..];
    (destruct (firstOf _ _ _ "") eqn:Hid;
     [destruct (firstOf _ _ _ "Onbekende rekening") eqn:Hname; [discriminate|]|];
     intros H; injection H as <-; right; eapply firstOf_throws; eassumption).
Qed.

Lemma shapeBudget_throws item e :
  shapeBudget item = Throw e -> e = readsNull \/ e = cannotConvert.
Proof.
  unfold shapeBudget. destruct item; [intros H; injection H as <-; now left| ..];
    (destruct (firstOf _ _ _ "") eqn:Hid;
     [destruct (firstOf _ _ _ "Onbekend budget") eqn:Hname; [discriminate|]|];
     intros H; injection H as <-; right; eapply firstOf_throws; eassumption).
Qed.

(** A [null] among the items ends the map with an exception: that of
    the [null], unless an item before it has thrown. *)
Lemma shapeAll_null shape before after :
  shape JsonNull = Throw readsNull ->
  (forall item e, shape item = Throw e -> e = readsNull \/ e = cannotConvert) ->
  exists e,
    shapeAll shape (before ++ JsonNull :: after) = Throw e /\
    (e = readsNull \/ e = cannotConvert) /\
    (Forall (fun item => exists entry, shape item = Normal entry) before -> e = readsNull).
Proof.
  intros Hnull Hthrows. induction before as [|item before IH]; cbn [app shapeAll].
  - rewrite Hnull. exists readsNull. auto.
  - destruct (shape item) as [entry|e] eqn:Hitem.
    + destruct IH as (e & -> & Hkind & Hfirst). exists e.
      split; [reflexivity|]. split; [exact Hkind|].
      intros Hall. apply Hfirst. now inversion Hall.
    + exists e. split; [reflexivity|]. split; [eapply Hthrows; eassumption|].
      intros Hall. inversion Hall as [|? ? [entry Hentry] _]; subst. congruence.
Qed.

(** X17: one [null] in the list the ledger sends fails the whole
    listing: the handler replies 502 and returns none of the other
    entries.  The details are the message of a [TypeError]: that of
    reading [id] of [null] when every entry before the [null] can be
    shaped, and otherwise that one or the message of [String] for an
    entry it cannot convert. *)
Theorem null_entry_fails_listing env payload body before after :
  MOCK_ACTUAL env <> Some "true" ->
  JsString.trim (orElse (body ≫= serverUrl) (orElse (ACTUAL_SERVER_URL env) "")) <> "" ->
  (extractAccountList payload = before ++ JsonNull :: after ->
   exists details,
     fst (accountsHandler env (answering payload) body) =
     ListStatus502 "Kon rekeningen niet ophalen bij Actual API." details /\
     (details = "Cannot read properties of null (reading 'id')" \/
      details = "Cannot convert object to primitive value") /\
     (Forall (fun item => exists entry, shapeAccount item = Normal entry) before ->
      details = "Cannot read properties of null (reading 'id')")) /\
  (extractBudgetList payload = before ++ JsonNull :: after ->
   exists details,
     fst (budgetsHandler env (answering payload) body) =
     ListStatus502 "Kon budget IDs niet ophalen bij Actual API." details /\
     (details = "Cannot read properties of null (reading 'id')" \/
      details = "Cannot convert object to primitive value") /\
     (Forall (fun item => exists entry, shapeBudget item = Normal entry) before ->
      details = "Cannot read properties of null (reading 'id')")).
Proof.
  intros Hmock Hurl. unfold accountsHandler, budgetsHandler, mockActual. cbv zeta.
  rewrite bool_decide_eq_false_2 by exact Hmock.
  apply isEmpty_false in Hurl. rewrite Hurl. unfold listFromLedger, answering.
  cbn [fst]. split; intros ->.
  - destruct (shapeAll_null shapeAccount before after eq_refl shapeAccount_throws)
      as (e & -> & Hkind & Hfirst).
    exists (thrownMessage e). split; [reflexivity|]. split.
    + destruct Hkind as [-> | ->]; [left|right]; reflexivity.
    + intros Hall. now rewrite (Hfirst Hall).
  - destruct (shapeAll_null shapeBudget before after eq_refl shapeBudget_throws)
      as (e & -> & Hkind & Hfirst).
    exists (thrownMessage e). split; [reflexivity|]. split.
    + destruct Hkind as [-> | ->]; [left|right]; reflexivity.
    + intros Hall. now rewrite (Hfirst Hall).
Qed.

Lemma null_entry_fails_listing_witness :
  exists details,
    fst (accountsHandler noEnv
           (answering (JsonArray [listedObject ("acc-1", "Betaalrekening"); JsonNull]))
           sampleConfig) =
    ListStatus502 "Kon rekeningen niet ophalen bij Actual API." details /\
    details = "Cannot read properties of null (reading 'id')".
Proof.
  destruct (null_entry_fails_listing noEnv
              (JsonArray [listedObject ("acc-1", "Betaalrekening"); JsonNull]) sampleConfig
              [listedObject ("acc-1", "Betaalrekening")] [])
    as [Haccounts _].
  - discriminate.
  - vm_compute. discriminate.
  - destruct Haccounts as (details & Hreply & _ & Hfirst); [reflexivity|].
    exists details. split; [exact Hreply|]. apply Hfirst.
    constructor; [eexists; reflexivity|constructor].
Defined.

(** An entry whose [id] has a member [toString] of its own, before the
    [null]: the details are the message of [String]. *)
Example unconvertible_entry_before_null :
  fst (accountsHandler noEnv
         (answering (JsonArray [JsonObject [("id", JsonObject [("toString", JsonNumber "1")])];
                                JsonNull]))
         sampleConfig) =
  ListStatus502 "Kon rekeningen niet ophalen bij Actual API."
                "Cannot convert object to primitive value".
Proof. vm_compute. reflexivity. Qed.

Lemma shapeAll_listed shape (listing : list (string * string)) :
  (forall entry, shape (listedObject entry) = Normal (listedEntry entry)) ->
  shapeAll shape (List.map listedObject listing) = Normal (List.map listedEntry listing).
Proof.
  intros Hshape. induction listing as [|entry listing IH]; [reflexivity|].
  cbn [List.map shapeAll]. now rewrite Hshape, IH.
Qed.

Lemma withId_listed (listing : list (string * string)) :
  Forall (fun entry => fst entry <> "") listing ->
  withId (List.map listedEntry listing) = List.map listedEntry listing.
Proof.
  induction 1 as [|entry listing Hid _ IH]; [reflexivity|].
  unfold withId in *. cbn [List.map List.filter entryId listedEntry].
  apply isEmpty_false in Hid. rewrite Hid. cbn [negb]. now rewrite IH.
Qed.

(** X18: a listing of objects with a string [id] that is not empty and
    a string [name] comes back as it was sent, entry by entry, when the
    ledger sends it as a bare array, under [accounts] or under
    [data.accounts]; for budgets, under [budgets] or [data.budgets], but a
    bare array of budgets is read as no budget at all. *)
Theorem listing_round_trip env body (listing : list (string * string)) :
  MOCK_ACTUAL env <> Some "true" ->
  JsString.trim (orElse (body ≫= serverUrl) (orElse (ACTUAL_SERVER_URL env) "")) <> "" ->
  Forall (fun entry => fst entry <> "") listing ->
  let items := JsonArray (List.map listedObject listing) in
  let listed := Listing (List.map listedEntry listing) in
  fst (accountsHandler env (answering items) body) = listed /\
  fst (accountsHandler env (answering (JsonObject [("accounts", items)])) body) = listed /\
  fst (accountsHandler env
         (answering (JsonObject [("data", JsonObject [("accounts", items)])])) body) = listed /\
  fst (budgetsHandler env (answering (JsonObject [("budgets", items)])) body) = listed /\
  fst (budgetsHandler env
         (answering (JsonObject [("data", JsonObject [("budgets", items)])])) body) = listed /\
  fst (budgetsHandler env (answering items) body) = Listing [].
Proof.
  intros Hmock Hurl Hids items listed.
  unfold accountsHandler, budgetsHandler, mockActual. cbv zeta.
  rewrite bool_decide_eq_false_2 by exact Hmock.
  apply isEmpty_false in Hurl. rewrite Hurl. unfold listFromLedger, answering.
  cbn [fst]. unfold items, listed.
  cbn [extractAccountList extractBudgetList jsonMember memberOf mbind option_bind
       String.eqb Ascii.eqb Bool.eqb].
  rewrite (shapeAll_listed shapeAccount) by reflexivity.
  rewrite (shapeAll_listed shapeBudget) by reflexivity.
  rewrite (withId_listed listing Hids). repeat split; reflexivity.
Qed.

Lemma listing_round_trip_witness :
  fst (accountsHandler noEnv
         (answering (JsonObject [("accounts", JsonArray (List.map listedObject sampleListing))]))
         sampleConfig)
  = Listing (List.map listedEntry sampleListing) /\
  fst (budgetsHandler noEnv (answering (JsonArray (List.map listedObject sampleListing)))
         sampleConfig)
  = Listing [].
Proof.
  destruct (listing_round_trip noEnv sampleConfig sampleListing)
    as (_ & Haccounts & _ & _ & _ & Hbudgets).
  - discriminate.
  - vm_compute. discriminate.
  - repeat constructor; discriminate.
  - split; [exact Haccounts|exact Hbudgets].
Defined.

(** X19: only [null] and a missing member let the next candidate of an
    identifier through.  An account whose [id] is the empty string is left
    out of the listing although it has a [uuid]; one whose [id] is [null]
    is listed under its [uuid]. *)
Theorem blank_id_hides_uuid env body uuid name :
  MOCK_ACTUAL env <> Some "true" ->
  JsString.trim (orElse (body ≫= serverUrl) (orElse (ACTUAL_SERVER_URL env) "")) <> "" ->
  uuid <> "" ->
  fst (accountsHandler env
         (answering (JsonArray [JsonObject [("id", JsonString ""); ("uuid", JsonString uuid);
                                            ("name", JsonString name)]])) body)
  = Listing [] /\
  exists entry,
    fst (accountsHandler env
           (answering (JsonArray [JsonObject [("id", JsonNull); ("uuid", JsonString uuid);
                                              ("name", JsonString name)]])) body)
    = Listing [entry] /\
    entryId entry = uuid /\ entryName entry = name.
Proof.
  intros Hmock Hurl Huuid.
  unfold accountsHandler, mockActual. cbv zeta.
  rewrite bool_decide_eq_false_2 by exact Hmock.
  apply isEmpty_false in Hurl. rewrite Hurl. unfold listFromLedger, answering.
  cbn [fst]. split; [reflexivity|].
  eexists. cbn. apply isEmpty_false in Huuid. rewrite Huuid. cbn.
  repeat split; reflexivity.
Qed.

Lemma blank_id_hides_uuid_witness :
  fst (accountsHandler noEnv
         (answering (JsonArray [JsonObject [("id", JsonString ""); ("uuid", JsonString "u-1");
                                            ("name", JsonString "Betaal")]])) sampleConfig)
  = Listing [].
Proof.
  apply (blank_id_hides_uuid noEnv sampleConfig "u-1" "Betaal").
  - discriminate.
  - vm_compute. discriminate.
  - discriminate.
Defined.

(** ** What the user reads *)

(** A 502 is the reply to one refused call: the last call of the trace,
    the call of the group at its position. *)
Lemma importLoop_refused env fetch req m todo : forall result calls calls' error details,
  importLoop env fetch req m todo result calls = (Replied (Status502 error details), calls') ->
  exists i g rs,
    todo !! i = Some (g, rs) /\
    calls' = calls ++ List.map (callOf env req m) (take (S i) todo) /\
    fetch (calls ++ List.map (callOf env req m) (take i todo)) (callOf env req m (g, rs))
    = ResponseNotOk details /\
    error = importFailed g.
Proof.
  destruct (dryRunFlag req || mockActual env) eqn:Hmode.
  { intros result calls calls' error details Hrun.
    rewrite importLoop_dry in Hrun by assumption. discriminate. }
  assert (liveMode env req = true) as Hlive by (unfold liveMode; now rewrite Hmode).
  induction todo as [|[g rs] todo IH]; intros result calls calls' error details Hrun.
  - discriminate.
  - rewrite importLoop_live in Hrun by assumption.
    destruct (JsString.isEmpty _); [discriminate|].
    destruct (negb _); [discriminate|].
    destruct (fetch calls (callOf env req m (g, rs))) as [|detail|] eqn:Hresp.
    + destruct (IH _ _ _ _ _ Hrun) as (i & g' & rs' & Hat & Hcalls & Hfetch & Herror).
      exists (S i), g', rs'. split; [exact Hat|].
      rewrite <- !app_assoc in Hcalls, Hfetch. auto.
    + cbn [failure] in Hrun. injection Hrun as <- <- <-.
      exists 0%nat, g, rs. cbn [take List.map]. rewrite app_nil_r. auto.
    + discriminate.
Qed.

(** X20: a 502 of the import handler answers one refusal of the ledger.
    Its error names the group whose call was refused (the last call of
    the trace, the call of the group at its position), its details are
    the text the ledger gave to that call, and the message the form
    shows is the error line, then that text after [Details:] (the line
    is left out when the text is empty), then the tip. *)
Theorem refused_import_message env fetch req uiDryRun rows0 m grouped error details :
  rows req = Some rows0 -> mapping req = Some m ->
  groupRows rows0 (groupByColumn req) = Normal grouped ->
  fst (importHandler env fetch req) = Replied (Status502 error details) ->
  exists i g rs,
    entries grouped !! i = Some (g, rs) /\
    snd (importHandler env fetch req) =
      List.map (callOf env req m) (take (S i) (entries grouped)) /\
    fetch (List.map (callOf env req m) (take i (entries grouped))) (callOf env req m (g, rs))
    = ResponseNotOk details /\
    error = importFailed g /\
    runImportMessage uiDryRun (Status502 error details) =
    Normal
      (importFailed g
       ++ (if JsString.isEmpty details then "" else newline ++ "Details: " ++ details)
       ++ newline ++ "Tip: " ++ importHint)%string.
Proof.
  intros Hrows Hm Hgrouped Hreply.
  rewrite (importHandler_grouped _ _ _ _ _ _ Hrows Hm Hgrouped) in *.
  destruct (importLoop env fetch req m (entries grouped) [] []) as [out calls] eqn:Hrun.
  cbn [fst snd] in *. subst out.
  destruct (importLoop_refused _ _ _ _ _ _ _ _ _ _ Hrun)
    as (i & g & rs & Hat & Hcalls & Hfetch & ->).
  exists i, g, rs. cbn [app] in Hcalls, Hfetch.
  split; [exact Hat|]. split; [exact Hcalls|]. split; [exact Hfetch|].
  split; [reflexivity|].
  unfold runImportMessage, parseApiMessage, truthyMember, errorBody, importFailed,
    templateLine.
  cbn [mbind option_bind jsonMember memberOf String.eqb Ascii.eqb Bool.eqb
       jsonTruthy JsString.isEmpty negb String.append].
  destruct details as [|c details]; reflexivity.
Qed.

Lemma refused_import_message_witness :
  exists i g rs,
    threeGroups !! i = Some (g, rs) /\
    refuseSecond
      (List.map (callOf liveEnv (groupedRequest (Some false) allAccounts) accountRules)
                (take i threeGroups))
      (callOf liveEnv (groupedRequest (Some false) allAccounts) accountRules (g, rs))
    = ResponseNotOk "account closed" /\
    runImportMessage false
      (Status502 "Import naar Actual mislukt voor groep 'Spaar'." "account closed") =
    Normal
      (importFailed g ++ newline ++ "Details: account closed"
       ++ newline ++ "Tip: " ++ importHint)%string.
Proof.
  destruct (refused_import_message liveEnv refuseSecond
              (groupedRequest (Some false) allAccounts) false
              threeGroupRows accountRules threeGroups
              "Import naar Actual mislukt voor groep 'Spaar'." "account closed")
    as (i & g & rs & Hat & _ & Hfetch & _ & Hmessage).
  - reflexivity.
  - reflexivity.
  - vm_compute. reflexivity.
  - vm_compute. reflexivity.
  - exists i, g, rs. split; [exact Hat|]. split; [exact Hfetch|exact Hmessage].
Defined.

(** ** The URL of the calls *)

Lemma stripTrailingSlash_slash s : JsString.stripTrailingSlash (s ++ "/") = s.
Proof.
  induction s as [|c s IH]; [reflexivity|].
  change (String c s ++ "/")%string with (String c (s ++ "/")%string).
  cbn [JsString.stripTrailingSlash]. rewrite IH.
  destruct s; reflexivity.
Qed.

Lemma trimEnd_slash s : JsString.trimEnd (s ++ "/") = (s ++ "/")%string.
Proof.
  induction s as [|c s IH]; [reflexivity|].
  change (String c s ++ "/")%string with (String c (s ++ "/")%string).
  cbn [JsString.trimEnd]. rewrite IH. destruct s; reflexivity.
Qed.

Lemma trim_slash s :
  JsString.trim s = s -> s <> "" -> JsString.trim (s ++ "/") = (s ++ "/")%string.
Proof.
  intros Htrim Hne. unfold JsString.trim.
  assert (JsString.trimStart s = s) as Hstart by (rewrite <- Htrim; apply trimStart_trim).
  destruct s as [|c s]; [contradiction|].
  change (String c s ++ "/")%string with (String c (s ++ "/")%string).
  simpl in Hstart. cbn [JsString.trimStart].
  destruct (JsString.isWhiteSpace c) eqn:Hc.
  - exfalso. pose proof (trimStart_clean s) as Hclean. rewrite Hstart in Hclean.
    congruence.
  - apply (trimEnd_slash (String c s)).
Qed.

(** X21: a server URL given with one slash at its end is used without
    it: the path of the import is appended to the URL itself, never after
    a doubled slash. *)
Theorem trailing_slash_is_dropped env req m g rs s :
  actualConfig req ≫= serverUrl = Some (s ++ "/")%string ->
  JsString.trim s = s -> s <> "" ->
  effectiveServerUrl env req = (s ++ "/")%string /\
  url (importCall env req m g rs) = (s ++ "/api/import-transactions")%string.
Proof.
  intros Hcfg Htrim Hne.
  assert (effectiveServerUrl env req = (s ++ "/")%string) as Hurl.
  { assert (JsString.isEmpty (s ++ "/") = false) as Hfull by (destruct s; reflexivity).
    unfold effectiveServerUrl. rewrite Hcfg. unfold orElse at 1. rewrite Hfull.
    now apply trim_slash. }
  split; [exact Hurl|].
  unfold importCall. cbn [url]. rewrite Hurl, stripTrailingSlash_slash. reflexivity.
Qed.

Lemma trailing_slash_is_dropped_witness :
  url (importCall liveEnv
         {| rows := None; mapping := None; groupByColumn := None; accountMapping := None;
            dryRun := Some false;
            actualConfig := Some {| serverUrl := Some "https://actual.example.com/";
                                    password := None; budgetId := None |} |}
         accountRules "Betaal" [])
  = "https://actual.example.com/api/import-transactions".
Proof.
  apply (trailing_slash_is_dropped liveEnv _ accountRules "Betaal" []
           "https://actual.example.com").
  - reflexivity.
  - vm_compute. reflexivity.
  - discriminate.
Defined.

(** ** When the grouping throws *)

Lemma groupRows_normal_safe rows column g :
  column <> "" ->
  groupRows rows (Some column) = Normal g ->
  Forall (fun row => inherited (groupKeyOf column row) = false) rows.
Proof.
  intros Hcol Hrun.
  pose proof (groupRows_keys_not_inherited _ _ _ Hrun) as Hkeys.
  rewrite Forall_forall in Hkeys.
  unfold groupRows in Hrun. apply isEmpty_false in Hcol. rewrite Hcol in Hrun.
  destruct (groupReduce_normal column rows [] [] g) as (Hget & _); [reflexivity|assumption|].
  simpl in Hget. apply Forall_forall. intros row Hin. apply list_elem_of_In in Hin.
  apply Hkeys. specialize (Hget (groupKeyOf column row)).
  pose proof (rowsOf_In column row rows Hin) as Hrow.
  destruct (rowsOf column (groupKeyOf column row) rows) as [|r rs]; [contradiction|].
  apply ownGet_Some_In in Hget. apply (in_map fst) in Hget.
  apply list_elem_of_In. exact Hget.
Qed.

Lemma safe_or_inherited column (rows0 : list Row) :
  Forall (fun row => inherited (groupKeyOf column row) = false) rows0 \/
  Exists (fun row => inherited (groupKeyOf column row) = true) rows0.
Proof.
  induction rows0 as [|row rows0 [IH|IH]].
  - left. constructor.
  - destruct (inherited (groupKeyOf column row)) eqn:Hrow.
    + right. now apply Exists_cons_hd.
    + left. now constructor.
  - right. now apply Exists_cons_tl.
Qed.

(** X22: with a grouping column, [groupRows] throws exactly when some
    row has a group key that every object inherits ([constructor],
    [toString], [__proto__], ...); the handler then ends with that
    exception, without reply and without call, in dry run as in live
    mode. *)
Theorem groupRows_throws_iff_inherited_key rows0 column :
  column <> "" ->
  ((exists e, groupRows rows0 (Some column) = Throw e) <->
   Exists (fun row => inherited (groupKeyOf column row) = true) rows0) /\
  (forall env fetch req m e,
     rows req = Some rows0 -> mapping req = Some m -> groupByColumn req = Some column ->
     groupRows rows0 (Some column) = Throw e ->
     importHandler env fetch req = (Uncaught e, [])).
Proof.
  intros Hcol. split.
  - split.
    + intros [e Hthrow]. destruct (safe_or_inherited column rows0) as [Hsafe|Hex];
        [|exact Hex].
      destruct (groupRows_returns rows0 column Hsafe) as [g Hg]. congruence.
    + intros Hex. destruct (groupRows rows0 (Some column)) as [g|e] eqn:Hrun; [|eauto].
      exfalso. pose proof (groupRows_normal_safe rows0 column g Hcol Hrun) as Hsafe.
      apply Exists_exists in Hex. destruct Hex as (row & Hin & Hinh).
      rewrite Forall_forall in Hsafe. specialize (Hsafe row Hin). congruence.
  - intros env fetch req m e Hrows Hm Hby Hthrow.
    unfold importHandler. now rewrite Hrows, Hm, Hby, Hthrow.
Qed.

Lemma groupRows_throws_iff_inherited_key_witness :
  exists e, groupRows constructorRows (Some "Naam") = Throw e.
Proof.
  apply (groupRows_throws_iff_inherited_key constructorRows "Naam").
  - discriminate.
  - left. vm_compute. reflexivity.
Defined.
